(** * Streamlit_Dashboard: the column standardizer, the merge and the page script

    A shallow embedding of [app.py].  The script leans on pandas for its data
    and on Streamlit for its output, so the development is organised as

    - [Text]: the string operations the classifier uses ([str.strip],
      [str.lower], the substring test [in]);
    - the pandas fragment the script calls: a [DataFrame] is an ordered list of
      named columns (names may repeat, exactly as after [DataFrame.rename]),
      with [getitem], [setitem], [rename], [concat], [reset_index],
      [sort_values] and the two coercions;
    - [_standardize_dataframe], the merge of lines 68-70 and the rendering
      part of the script, which emits a list of Streamlit calls.

    Python exceptions are values of [result].

    Modelling choices.  Column labels are strings of bytes and the text
    operations act on the ASCII range.  A cell is text, a number, a timestamp
    or one of the two missing values; numbers live in an abstract carrier
    ([Numeric]).  What pandas decides on its own, that is which text parses as
    a number or a date and how a file is read, is a parameter ([Pandas]).
    Streamlit runs the script from the top with fresh names on every
    interaction, so the name [df_combined] is bound exactly when the [try]
    block ran to its end. *)

From Stdlib Require Import ZArith Ascii String Floats.PrimFloat.
From stdpp Require Import gmap strings list fin_maps sorting.

Local Open Scope string_scope.
Local Open Scope list_scope.

(** ** Text operations *)

Module Text.

(** Characters removed by [str.strip()] without argument, restricted to the
    ASCII range: tab, line feed, vertical tab, form feed, carriage return, the
    four separators 0x1c-0x1f and the space. *)
Definition is_space (c : ascii) : bool :=
  let n := nat_of_ascii c in
  ((9 <=? n) && (n <=? 13) || (28 <=? n) && (n <=? 32))%nat.

Fixpoint lstrip (s : string) : string :=
  match s with
  | EmptyString => EmptyString
  | String c s' => if is_space c then lstrip s' else s
  end.

Fixpoint rstrip (s : string) : string :=
  match s with
  | EmptyString => EmptyString
  | String c s' =>
      match rstrip s' with
      | EmptyString => if is_space c then EmptyString else String c EmptyString
      | r => String c r
      end
  end.

(** [str.strip()] *)
Definition strip (s : string) : string := rstrip (lstrip s).

Definition lower_char (c : ascii) : ascii :=
  let n := nat_of_ascii c in
  if ((65 <=? n) && (n <=? 90))%nat then ascii_of_nat (n + 32) else c.

(** [str.lower()] on ASCII text; bytes above 127 are left alone. *)
Fixpoint lower (s : string) : string :=
  match s with
  | EmptyString => EmptyString
  | String c s' => String (lower_char c) (lower s')
  end.

Fixpoint starts_with (p s : string) : bool :=
  match p, s with
  | EmptyString, _ => true
  | String a p', String b s' => if Ascii.eqb a b then starts_with p' s' else false
  | String _ _, EmptyString => false
  end.

(** Python's [needle in hay] on strings. *)
Fixpoint contains (needle hay : string) : bool :=
  starts_with needle hay ||
  match hay with
  | EmptyString => false
  | String _ hay' => contains needle hay'
  end.

End Text.

Import Text.

(** ** Column classification (lines 19-33) *)

(** The body of the [for col in df.columns] loop: the value stored in
    [col_map[col]]. *)
Definition classify (col : string) : string :=
  let name := strip col in
  let lname := lower name in
  if contains "date" lname || contains "month" lname || contains "period" lname
  then "Date"
  else if contains "revenue" lname || contains "sale" lname
          || contains "sales" lname || contains "amount" lname
  then "Revenue"
  else if contains "expense" lname || contains "cost" lname
  then "Expenses"
  else name.

(** The dictionary built by the loop: one assignment [col_map[col] = ...] per
    column label, in order. *)
Definition build_col_map (labels : list string) : gmap string string :=
  foldl (fun m col => <[col := classify col]> m) ∅ labels.

(** [DataFrame.rename(columns=m)] on one label: mapped labels are replaced,
    labels missing from the dictionary stay. *)
Definition rename_label (m : gmap string string) (l : string) : string :=
  default l (m !! l).

(** The classification as the specification words it: an ordered list of
    rules (keywords, canonical name), the first rule with a keyword occurring
    in the lower-cased trimmed name decides, and the trimmed name is kept when
    no rule applies. *)
Definition rules : list (list string * string) :=
  [ (["date"; "month"; "period"], "Date");
    (["revenue"; "sale"; "sales"; "amount"], "Revenue");
    (["expense"; "cost"], "Expenses") ].

Fixpoint first_match (rs : list (list string * string)) (lname : string)
  : option string :=
  match rs with
  | [] => None
  | (kws, canon) :: rs' =>
      if existsb (fun kw => contains kw lname) kws then Some canon
      else first_match rs' lname
  end.

Definition classify_spec (col : string) : string :=
  default (strip col) (first_match rules (lower (strip col))).

(** ** Exceptions *)

Inductive exn :=
| KeyError (msg : string)
| TypeError (msg : string)
| ValueError (msg : string)
| InvalidIndexError (msg : string)
| ParserError (msg : string).

(** [str(e)], as interpolated into the sidebar message. *)
Definition str_exn (e : exn) : string :=
  match e with
  | KeyError m | TypeError m | ValueError m | InvalidIndexError m
  | ParserError m => m
  end.

Inductive result (A : Type) :=
| Ok (a : A)
| Raise (e : exn).
Arguments Ok {A} a.
Arguments Raise {A} e.

#[global] Instance result_ret : MRet result := fun A a => Ok a.
#[global] Instance result_bind : MBind result := fun A B f m =>
  match m with
  | Ok a => f a
  | Raise e => Raise e
  end.

Definition is_ok {A} (r : result A) : bool :=
  match r with Ok _ => true | Raise _ => false end.

(** ** The pandas fragment *)

(** Numeric cells.  pandas stores [int64] or [float64]; the script only adds,
    subtracts and writes zero, so the carrier is left open and its operations
    are an interface. *)
Class Numeric (num : Type) := {
  nzero : num;                      (* 0 and 0.0 *)
  nadd : num -> num -> num;
  nsub : num -> num -> num;
  nofnat : nat -> num               (* the labels of a RangeIndex *)
}.

Section Frames.
Context {num : Type}.

(** A cell of a column: text, a number, a timestamp (nanoseconds since the
    epoch, as [datetime64[ns]]), the missing number [NaN] or the missing
    timestamp [NaT]. *)
Inductive cell :=
| CStr (s : string)
| CNum (x : num)
| CDate (t : Z)
| CNaN
| CNaT.

(** Columns in order, each with its label; labels may repeat.  [nrows] is the
    length of the index. *)
Record DataFrame := {
  cols : list (string * list cell);
  nrows : nat
}.

(** What [df[key]] evaluates to: a [Series] when one column carries the
    label, a two-dimensional frame when several do. *)
Inductive selection :=
| Series (s : list cell)
| Frame (cs : list (list cell)).

End Frames.
Arguments cell num : clear implicits.
Arguments DataFrame num : clear implicits.
Arguments selection num : clear implicits.

(** The parts of pandas whose behaviour is fixed outside this repository:
    what [to_numeric] and [to_datetime] make of a cell that is not yet of the
    target kind ([None] stands for a failed parse, which [errors='coerce']
    turns into [NaN] or [NaT]; the datetime parser sees the whole column
    because it infers one format per column), and the CSV reader. *)
Class Pandas (num : Type) := {
  parse_numeric : cell num -> option num;
  parse_datetime : list (cell num) -> cell num -> option Z;
  read_csv : string -> result (DataFrame num)
}.

Section Model.
Context {num : Type} `{!Numeric num, !Pandas num}.

Local Abbreviation cell := (cell num).
Local Abbreviation DataFrame := (DataFrame num).
Local Abbreviation selection := (selection num).

(** [df.columns] *)
Definition columns (df : DataFrame) : list string := (cols df).*1.

(** [key in df.columns] *)
Definition has_column (key : string) (df : DataFrame) : bool :=
  bool_decide (key ∈ columns df).

(** A frame is well formed when every column has one cell per index entry. *)
Definition wf (df : DataFrame) : Prop :=
  Forall (fun c : string * list cell => length c.2 = nrows df) (cols df).

(** [df.rename(columns=m)] *)
Definition rename (m : gmap string string) (df : DataFrame) : DataFrame :=
  {| cols := prod_map (rename_label m) id <$> cols df; nrows := nrows df |}.

(** [df[key]] *)
Definition getitem (df : DataFrame) (key : string) : result selection :=
  match filter (fun c : string * list cell => c.1 = key) (cols df) with
  | [] => Raise (KeyError key)
  | [c] => Ok (Series c.2)
  | cs => Ok (Frame (cs.*2))
  end.

(** [df[key] = values]: every column labelled [key] takes the new cells; a
    fresh label is appended as the last column. *)
Definition setitem (df : DataFrame) (key : string) (v : list cell) : DataFrame :=
  if has_column key df
  then {| cols := (fun c : string * list cell =>
                     if decide (c.1 = key) then (c.1, v) else c) <$> cols df;
          nrows := nrows df |}
  else {| cols := cols df ++ [(key, v)]; nrows := nrows df |}.

(** [df[key] = scalar]: the scalar is broadcast along the index. *)
Definition setitem_scalar (df : DataFrame) (key : string) (c : cell) : DataFrame :=
  setitem df key (replicate (nrows df) c).

(** One cell under [to_datetime(errors='coerce')]: timestamps stay, missing
    values become [NaT], anything else is parsed and becomes [NaT] when the
    parse fails. *)
Definition to_datetime_cell (column : list cell) (c : cell) : cell :=
  match c with
  | CDate t => CDate t
  | CNaT | CNaN => CNaT
  | _ => match parse_datetime column c with
         | Some t => CDate t
         | None => CNaT
         end
  end.

(** [pd.to_datetime(arg, errors='coerce')].  A frame argument is taken as
    year/month/day columns to assemble; the frame [df['Date']] of a table with
    several [Date] columns has a repeated label and is rejected. *)
Definition to_datetime (arg : selection) : result (list cell) :=
  match arg with
  | Series s => Ok (to_datetime_cell s <$> s)
  | Frame _ => Raise (ValueError "cannot assemble with duplicate keys")
  end.

(** One cell under [to_numeric(errors='coerce')]: numbers and [NaN] stay,
    anything else is parsed and becomes [NaN] when the parse fails. *)
Definition to_numeric_cell (c : cell) : cell :=
  match c with
  | CNum x => CNum x
  | CNaN => CNaN
  | _ => match parse_numeric c with
         | Some x => CNum x
         | None => CNaN
         end
  end.

(** [pd.to_numeric(arg, errors='coerce')].  Only one-dimensional arguments
    are accepted. *)
Definition to_numeric (arg : selection) : result (list cell) :=
  match arg with
  | Series s => Ok (to_numeric_cell <$> s)
  | Frame _ => Raise (TypeError "arg must be a list, tuple, 1-d array, or Series")
  end.

Definition fillna_cell (v : num) (c : cell) : cell :=
  match c with
  | CNaN => CNum v
  | _ => c
  end.

(** [Series.fillna(v)] *)
Definition fillna (v : num) (s : list cell) : list cell := fillna_cell v <$> s.

(** ** The standardizer (lines 11-53) *)

Definition _standardize_dataframe (df : DataFrame) : result DataFrame :=
  let col_map := build_col_map (columns df) in
  let df := rename col_map df in
  df ← (if has_column "Date" df
        then s ← getitem df "Date"; v ← to_datetime s;
             mret (setitem df "Date" v)
        else mret (setitem_scalar df "Date" CNaT));
  df ← (if has_column "Revenue" df
        then s ← getitem df "Revenue"; v ← to_numeric s;
             mret (setitem df "Revenue" (fillna nzero v))
        else mret (setitem_scalar df "Revenue" (CNum nzero)));
  df ← (if has_column "Expenses" df
        then s ← getitem df "Expenses"; v ← to_numeric s;
             mret (setitem df "Expenses" (fillna nzero v))
        else mret (setitem_scalar df "Expenses" (CNum nzero)));
  mret df.

(** *** Vocabulary for the statements about the standardizer *)

Definition canonical : list string := ["Date"; "Revenue"; "Expenses"].

(** How many columns of [df] the classifier sends to [key]. *)
Definition occurrences (key : string) (df : DataFrame) : nat :=
  length (filter (fun l => l = key) (classify <$> columns df)).

(** No canonical name is claimed by two columns. *)
Definition unambiguous (df : DataFrame) : Prop :=
  Forall (fun key => occurrences key df <= 1) canonical.

#[global] Instance unambiguous_dec (df : DataFrame) : Decision (unambiguous df).
Proof. unfold unambiguous. apply _. Defined.

(** The columns the classifier leaves alone. *)
Definition passthrough (df : DataFrame) : list (string * list cell) :=
  filter (fun c : string * list cell => classify c.1 ∉ canonical) (cols df).

Definition is_numeric (c : cell) : bool :=
  match c with CNum _ => true | _ => false end.

Definition is_datetime (c : cell) : bool :=
  match c with CDate _ | CNaT => true | _ => false end.

(** One of the three [if key in df.columns: ... else: ...] blocks, with the
    coercion and the default as parameters. *)
Definition coerce_step (key : string) (conv : selection -> result (list cell))
    (dflt : cell) (df : DataFrame) : result DataFrame :=
  if has_column key df
  then s ← getitem df key; v ← conv s; mret (setitem df key v)
  else mret (setitem_scalar df key dflt).

(** The conversion of the Revenue and Expenses blocks:
    [pd.to_numeric(..., errors='coerce').fillna(0)]. *)
Definition numeric_conv (s : selection) : result (list cell) :=
  v ← to_numeric s; mret (fillna nzero v).

(** The frame such a block leaves behind when it does not raise: the column
    labelled [key] rewritten by [f], or a column of defaults appended. *)
Definition assign (key : string) (f : list cell -> list cell) (dflt : cell)
    (df : DataFrame) : DataFrame :=
  if has_column key df
  then {| cols := (fun c : string * list cell =>
                     if decide (c.1 = key) then (c.1, f c.2) else c) <$> cols df;
          nrows := nrows df |}
  else {| cols := cols df ++ [(key, replicate (nrows df) dflt)];
          nrows := nrows df |}.

Definition numeric_column (s : list cell) : list cell :=
  fillna nzero (to_numeric_cell <$> s).

Definition datetime_column (s : list cell) : list cell :=
  to_datetime_cell s <$> s.

(** The table the standardizer returns on an unambiguous input. *)
Definition standard_form (df : DataFrame) : DataFrame :=
  assign "Expenses" numeric_column (CNum nzero)
    (assign "Revenue" numeric_column (CNum nzero)
       (assign "Date" datetime_column CNaT
          (rename (build_col_map (columns df)) df))).

(** ** The merge (lines 68-70) *)

(** [pd.concat([df1, df2], ignore_index=True)].  Frames with the same label
    sequence are stacked column by column.  Otherwise the labels are aligned:
    the result has the labels of [df1] followed by the new labels of [df2],
    and a column missing on one side is filled with [NaN] there.  Alignment
    needs unique labels on both sides; pandas raises [InvalidIndexError]
    when they are not. *)
Definition concat (df1 df2 : DataFrame) : result DataFrame :=
  if decide (columns df1 = columns df2) then
    Ok {| cols := zip_with (fun c1 c2 : string * list cell => (c1.1, c1.2 ++ c2.2))
                           (cols df1) (cols df2);
          nrows := nrows df1 + nrows df2 |}
  else if bool_decide (NoDup (columns df1)) && bool_decide (NoDup (columns df2)) then
    Ok {| cols :=
            ((fun c : string * list cell =>
                (c.1, c.2 ++ match list_find (fun d : string * list cell => d.1 = c.1) (cols df2) with
                             | Some (_, d) => d.2
                             | None => replicate (nrows df2) CNaN
                             end)) <$> cols df1)
            ++ ((fun d : string * list cell => (d.1, replicate (nrows df1) CNaN ++ d.2))
                  <$> filter (fun d : string * list cell => d.1 ∉ columns df1) (cols df2));
          nrows := nrows df1 + nrows df2 |}
  else Raise (InvalidIndexError "Reindexing only valid with uniquely valued Index objects").

Definition merge (df1 df2 : DataFrame) : result DataFrame :=
  let df1 := setitem_scalar df1 "Company" (CStr "Company A") in
  let df2 := setitem_scalar df2 "Company" (CStr "Company B") in
  concat df1 df2.

(** The body of the [try] block, lines 64-70. *)
Definition load (file1 file2 : string) : result DataFrame :=
  df1 ← read_csv file1;
  df2 ← read_csv file2;
  df1 ← _standardize_dataframe df1;
  df2 ← _standardize_dataframe df2;
  merge df1 df2.

(** ** Totals (lines 81-88) *)

(** [Series.sum()] with the default [skipna=True]: missing cells do not
    contribute. *)
Fixpoint series_sum (s : list cell) : num :=
  match s with
  | [] => nzero
  | CNum x :: s' => nadd x (series_sum s')
  | _ :: s' => series_sum s'
  end.

(** [df[key].sum()] as a scalar; a frame selection sums to a Series, which the
    number format of the metric rejects. *)
Definition column_sum (df : DataFrame) (key : string) : result num :=
  s ← getitem df key;
  match s with
  | Series s => Ok (series_sum s)
  | Frame _ => Raise (TypeError "unsupported format string passed to Series.__format__")
  end.

(** ** The horizontal axis (lines 96-102) *)

Definition isna (c : cell) : bool :=
  match c with
  | CNaN | CNaT => true
  | _ => false
  end.

(** [df.reset_index()] on a frame with a default [RangeIndex]: the index
    becomes the first column.  It is labelled [index], or [level_0] when a
    column labelled [index] is already there; inserting a label that exists
    raises. *)
Definition reset_index (df : DataFrame) : result DataFrame :=
  let name := if has_column "index" df then "level_0" else "index" in
  if has_column name df
  then Raise (ValueError ("cannot insert " +:+ name +:+ ", already exists"))
  else Ok {| cols := (name, (fun i => CNum (nofnat i)) <$> seq 0 (nrows df)) :: cols df;
             nrows := nrows df |}.

(** The order [sort_values] uses on a datetime key: timestamps ascending,
    missing values last ([na_position='last']). *)
Definition key_le (a b : cell) : Prop :=
  match a, b with
  | CDate x, CDate y => (x <= y)%Z
  | CDate _, _ => True
  | _, CDate _ => False
  | _, _ => True
  end.

#[global] Instance key_le_dec a b : Decision (key_le a b).
Proof. destruct a, b; simpl; apply _. Defined.

(** The row positions in sorted order. *)
Definition argsort (keys : list cell) : list nat :=
  (merge_sort (fun p q : cell * nat => key_le p.1 q.1)
              (zip keys (seq 0 (length keys)))).*2.

(** [Series.take(order)] *)
Definition take_rows (order : list nat) (s : list cell) : list cell :=
  (fun i => default CNaN (s !! i)) <$> order.

(** [df.sort_values(key)] *)
Definition sort_values (df : DataFrame) (key : string) : result DataFrame :=
  s ← getitem df key;
  match s with
  | Series k =>
      Ok {| cols := prod_map id (take_rows (argsort k)) <$> cols df;
            nrows := nrows df |}
  | Frame _ => Raise (ValueError ("The column label '" +:+ key +:+ "' is not unique."))
  end.

(** [df['Date'].isna().all()] used as a condition. *)
Definition date_all_na (df : DataFrame) : result bool :=
  s ← getitem df "Date";
  match s with
  | Series s => Ok (forallb isna s)
  | Frame _ => Raise (ValueError "The truth value of a Series is ambiguous.")
  end.

(** Lines 97-102: the frame handed to the chart and the name of its x
    column. *)
Definition choose_axis (df_combined : DataFrame) : result (DataFrame * string) :=
  no_date ← (if negb (has_column "Date" df_combined) then Ok true
             else date_all_na df_combined);
  if (no_date : bool) then
    df ← reset_index df_combined;
    Ok (rename {["index" := "Period"]} df, "Period")
  else
    df ← sort_values df_combined "Date";
    Ok (df, "Date").

(** ** The page script *)

(** The Streamlit calls the script makes, in order.  A Python exception that
    leaves the script ends the run; Streamlit shows it in place of the rest of
    the page. *)
Inductive call :=
| st_title (body : string)
| st_write (body : string)
| st_sidebar_header (body : string)
| st_sidebar_success (body : string)
| st_sidebar_error (body : string)
| st_sidebar_info (body : string)
| st_header (body : string)
| st_subheader (body : string)
| st_metric (label : string) (value : num)
| st_selectbox (label : string) (options : list string)
| st_plotly_chart (data : DataFrame) (x y color : string)
| st_dataframe_describe (data : DataFrame)
| uncaught (e : exn).

(** The calls that draw the dashboard proper: totals, chart and summary. *)
Definition is_dashboard (c : call) : bool :=
  match c with
  | st_header _ | st_subheader _ | st_metric _ _ | st_selectbox _ _
  | st_plotly_chart _ _ _ _ | st_dataframe_describe _ => true
  | _ => false
  end.

(** Lines 77-115.  [selectbox] is the user's choice among the offered
    options. *)
Definition render (selectbox : list string -> string) (df_combined : DataFrame)
  : list call :=
  st_header "Side-by-side performance" ::
  st_subheader "Overall Totals" ::
  match column_sum df_combined "Revenue" with
  | Raise e => [uncaught e]
  | Ok total_revenue =>
      st_metric "Total Revenue" total_revenue ::
      match column_sum df_combined "Expenses" with
      | Raise e => [uncaught e]
      | Ok total_expenses =>
          let total_profit := nsub total_revenue total_expenses in
          let metrics_available :=
            filter (fun m => m ∈ columns df_combined) ["Revenue"; "Expenses"] in
          let metric_to_plot := selectbox metrics_available in
          st_metric "Total Expenses" total_expenses ::
          st_metric "Total Profit" total_profit ::
          st_subheader "Revenue and Expenses over Time" ::
          st_selectbox "Select Metric to Plot" metrics_available ::
          match choose_axis df_combined with
          | Raise e => [uncaught e]
          | Ok (df_combined, x_col) =>
              [st_plotly_chart df_combined x_col metric_to_plot "Company";
               st_dataframe_describe df_combined]
          end
      end
  end.

(** Lines 6-8 and 56-117.  The two uploader widgets return the uploaded file
    contents, or [None] while nothing is uploaded. *)
Definition script (uploaded_file1 uploaded_file2 : option string)
    (selectbox : list string -> string) : list call :=
  st_title "Company performance dashboard" ::
  st_write "Upload your company performance data to see the insights" ::
  st_sidebar_header "Upload your data file" ::
  match uploaded_file1, uploaded_file2 with
  | Some file1, Some file2 =>
      match load file1 file2 with
      | Ok df_combined =>
          st_sidebar_success "Data uploaded successfully" ::
          render selectbox df_combined
      | Raise e => [st_sidebar_error ("Error loading files: " +:+ str_exn e)]
      end
  | _, _ => [st_sidebar_info "Please upload both data files to see the dashboard."]
  end.

End Model.

(** ** A concrete instance for running the model

    Integer data, unsigned decimal numerals as numeric text, ISO dates
    [YYYY-MM-DD] as date text, and a reader for plain comma-separated text
    (no quoting).  It is used to evaluate the script on explicit tables. *)

Module Demo.

#[global] Instance Z_numeric : Numeric Z :=
  {| nzero := 0%Z; nadd := Z.add; nsub := Z.sub; nofnat := Z.of_nat |}.

Fixpoint digits (s : string) (acc : Z) : option Z :=
  match s with
  | EmptyString => Some acc
  | String c s' =>
      let n := nat_of_ascii c in
      if ((48 <=? n) && (n <=? 57))%nat
      then digits s' (10 * acc + Z.of_nat (n - 48))%Z
      else None
  end.

Definition numeral (s : string) : option Z :=
  match s with
  | EmptyString => None
  | _ => digits s 0
  end.

Fixpoint split_on (sep : ascii) (s : string) : list string :=
  match s with
  | EmptyString => [EmptyString]
  | String c s' =>
      if Ascii.eqb c sep then EmptyString :: split_on sep s'
      else match split_on sep s' with
           | [] => [String c EmptyString]
           | w :: ws => String c w :: ws
           end
  end.

(** Days since 1970-01-01 of a proleptic Gregorian date. *)
Definition days_from_civil (y m d : Z) : Z :=
  let y := (if m <=? 2 then y - 1 else y)%Z in
  let era := (y / 400)%Z in
  let yoe := (y - era * 400)%Z in
  let doy := ((153 * (if 2 <? m then m - 3 else m + 9) + 2) / 5 + d - 1)%Z in
  let doe := (yoe * 365 + yoe / 4 - yoe / 100 + doy)%Z in
  (era * 146097 + doe - 719468)%Z.

Definition iso_date (s : string) : option Z :=
  match numeral <$> split_on "-"%char s with
  | [Some y; Some m; Some d] =>
      if ((1 <=? m) && (m <=? 12) && (1 <=? d) && (d <=? 31))%Z
      then Some (days_from_civil y m d * 86400000000000)%Z
      else None
  | _ => None
  end.

Definition csv_cell (s : string) : cell Z :=
  match s with
  | EmptyString => CNaN
  | _ => match numeral s with
         | Some x => CNum x
         | None => CStr s
         end
  end.

Definition csv (content : string) : result (DataFrame Z) :=
  match filter (fun l => l ≠ EmptyString) (split_on "010"%char content) with
  | [] => Raise (ParserError "No columns to parse from file")
  | header :: lines =>
      let labels := split_on ","%char header in
      let rows := split_on ","%char <$> lines in
      if forallb (fun r => length r =? length labels)%nat rows
      then Ok {| cols := imap (fun j l =>
                           (l, (fun r => csv_cell (default EmptyString (r !! j))) <$> rows))
                           labels;
                 nrows := length rows |}
      else Raise (ParserError "Error tokenizing data")
  end.

#[global] Instance demo_pandas : Pandas Z :=
  {| parse_numeric c :=
       match c with
       | CStr s => numeral s
       | CDate t => Some t
       | CNaT => Some (- 2 ^ 63)%Z
       | _ => None
       end;
     parse_datetime _ c :=
       match c with
       | CStr s => iso_date s
       | CNum x => Some x
       | _ => None
       end;
     read_csv := csv |}.

Definition frame (cs : list (string * list (cell Z))) (n : nat) : DataFrame Z :=
  {| cols := cs; nrows := n |}.

Definition nl : string := String "010"%char EmptyString.

(** Two uploads: monthly sales of one company, dated costs of the other. *)
Definition sales_csv : string :=
  "Month,Sales, Region " +:+ nl +:+ "2024-02-01,100,North" +:+ nl +:+ "Feb,abc,South" +:+ nl.

Definition costs_csv : string :=
  "date,Total Cost" +:+ nl +:+ "2024-01-15,40" +:+ nl +:+ "2024-03-01,5" +:+ nl
  +:+ "n/a,7" +:+ nl.

Definition monthly : DataFrame Z :=
  frame [("Month", [CStr "2024-02-01"; CStr "Feb"]);
         ("Sales", [CNum 100%Z; CStr "abc"]);
         (" Region ", [CStr "North"; CStr "South"])] 2.

Definition monthly_std : DataFrame Z :=
  frame [("Date", [CDate 1706745600000000000; CNaT]);
         ("Revenue", [CNum 100%Z; CNum 0%Z]);
         ("Region", [CStr "North"; CStr "South"]);
         ("Expenses", [CNum 0%Z; CNum 0%Z])] 2.

Definition dated : DataFrame Z :=
  frame [("date", [CStr "2024-01-15"; CStr "2024-03-01"; CStr "n/a"]);
         ("Total Cost", [CNum 40%Z; CNum 5%Z; CNum 7%Z])] 3.

Definition dated_std : DataFrame Z :=
  frame [("Date", [CDate 1705276800000000000; CDate 1709251200000000000; CNaT]);
         ("Expenses", [CNum 40%Z; CNum 5%Z; CNum 7%Z]);
         ("Revenue", [CNum 0%Z; CNum 0%Z; CNum 0%Z])] 3.

Definition both : DataFrame Z :=
  frame [("Date", [CDate 1706745600000000000; CNaT;
                   CDate 1705276800000000000; CDate 1709251200000000000; CNaT]);
         ("Revenue", [CNum 100%Z; CNum 0%Z; CNum 0%Z; CNum 0%Z; CNum 0%Z]);
         ("Region", [CStr "North"; CStr "South"; CNaN; CNaN; CNaN]);
         ("Expenses", [CNum 0%Z; CNum 0%Z; CNum 40%Z; CNum 5%Z; CNum 7%Z]);
         ("Company", [CStr "Company A"; CStr "Company A";
                      CStr "Company B"; CStr "Company B"; CStr "Company B"])] 5.

(** Tables in which two columns share a class. *)
Definition two_date_columns : DataFrame Z :=
  frame [("Date", [CStr "2024-01-15"]); ("Month", [CStr "Jan"]);
         ("Sales", [CNum 10%Z])] 1.

Definition two_revenue_columns : DataFrame Z :=
  frame [("Revenue", [CNum 1%Z]); ("Sales", [CNum 2%Z])] 1.

(** Uploads without dates whose tables carry a column labelled [index]. *)
Definition indexed_a_csv : string :=
  "index,Sales" +:+ nl +:+ "7,100" +:+ nl +:+ "9,200" +:+ nl.

Definition indexed_b_csv : string :=
  "index,Sales" +:+ nl +:+ "3,5" +:+ nl.

Definition first_option (options : list string) : string :=
  default EmptyString (head options).

End Demo.


(** ** Further vocabulary and data *)

(** The sidebar call that reports how the upload went. *)
Definition is_status {num : Type} (c : call (num := num)) : bool :=
  match c with
  | st_sidebar_success _ | st_sidebar_error _ | st_sidebar_info _ => true
  | _ => false
  end.

(** Every keyword the classifier looks for. *)
Definition keywords : list string :=
  ["date"; "month"; "period"; "revenue"; "sale"; "sales"; "amount";
   "expense"; "cost"].

(** The loop body of lines 21-31 with the test for "sales" left out. *)
Definition classify_no_sales (col : string) : string :=
  let name := strip col in
  let lname := lower name in
  if contains "date" lname || contains "month" lname || contains "period" lname
  then "Date"
  else if contains "revenue" lname || contains "sale" lname || contains "amount" lname
  then "Revenue"
  else if contains "expense" lname || contains "cost" lname
  then "Expenses"
  else name.

(** The calls every successful load starts with, up to the metric selector. *)
Definition dashboard_head {num : Type} `{!Numeric num}
    (total_revenue total_expenses : num) : list (call (num := num)) :=
  [st_title "Company performance dashboard";
   st_write "Upload your company performance data to see the insights";
   st_sidebar_header "Upload your data file";
   st_sidebar_success "Data uploaded successfully";
   st_header "Side-by-side performance";
   st_subheader "Overall Totals";
   st_metric "Total Revenue" total_revenue;
   st_metric "Total Expenses" total_expenses;
   st_metric "Total Profit" (nsub total_revenue total_expenses);
   st_subheader "Revenue and Expenses over Time";
   st_selectbox "Select Metric to Plot" ["Revenue"; "Expenses"]].

Module Runs.

Definition nl : string := String "010"%char EmptyString.

(** An upload whose table has both an [index] and a [level_0] column and no
    dates. *)
Definition levels_csv : string :=
  "index,level_0,Sales" +:+ nl +:+ "7,1,100" +:+ nl.

(** Uploads with a header line only. *)
Definition header_only_csv : string := "Sales,Cost" +:+ nl.

(** The monthly table with other cells under the same labels. *)
Definition monthly_other_cells : DataFrame Z :=
  Demo.frame [("Month", [CNaN]); ("Sales", [CStr "x"]); (" Region ", [CNum 3%Z])] 1.

(** An upload with numbers only, used for both companies. *)
Definition plain_csv : string := "Sales,Cost" +:+ nl +:+ "1,2" +:+ nl.

Definition plain_combined : DataFrame Z :=
  Demo.frame [("Revenue", [CNum 1%Z; CNum 1%Z]);
              ("Expenses", [CNum 2%Z; CNum 2%Z]);
              ("Date", [CNaT; CNaT]);
              ("Company", [CStr "Company A"; CStr "Company B"])] 2.

Definition levels_combined : DataFrame Z :=
  Demo.frame [("index", [CNum 7%Z; CNum 7%Z]);
              ("level_0", [CNum 1%Z; CNum 1%Z]);
              ("Revenue", [CNum 100%Z; CNum 100%Z]);
              ("Date", [CNaT; CNaT]);
              ("Expenses", [CNum 0%Z; CNum 0%Z]);
              ("Company", [CStr "Company A"; CStr "Company B"])] 2.

Definition header_only : DataFrame Z :=
  Demo.frame [("Sales", []); ("Cost", [])] 0.

Definition header_only_combined : DataFrame Z :=
  Demo.frame [("Revenue", []); ("Expenses", []); ("Date", []); ("Company", [])] 0.

Definition both_dates : list (cell Z) :=
  [CDate 1706745600000000000; CNaT; CDate 1705276800000000000;
   CDate 1709251200000000000; CNaT].

End Runs.

(** ** A float64 instance

    Numbers as IEEE binary64 values, the type of a column that holds a decimal
    or a missing value and of the defaults [0.0].  The instance serves tables
    whose cells are already numbers: text is taken as unparseable and no file
    is read. *)

Module Float64.

#[export] Instance float_numeric : Numeric float :=
  {| nzero := 0%float;
     nadd := PrimFloat.add;
     nsub := PrimFloat.sub;
     nofnat n := Nat.iter n (fun x => PrimFloat.add x 1%float) 0%float |}.

#[export] Instance float_pandas : Pandas float :=
  {| parse_numeric _ := None;
     parse_datetime _ _ := None;
     read_csv _ := Raise (ParserError "No columns to parse from file") |}.

(** One company with revenues 1e16 and 1, the other with 1 and 1. *)
Definition large_and_small : DataFrame float :=
  {| cols := [("Revenue", [CNum 1e16%float; CNum 1%float])]; nrows := 2 |}.

Definition small_only : DataFrame float :=
  {| cols := [("Revenue", [CNum 1%float; CNum 1%float])]; nrows := 2 |}.

(** The numbers of a column added from the left, the other order in which a
    sum can run through the rows. *)
Definition left_sum (s : list float) : float := foldl PrimFloat.add 0%float s.

End Float64.

(** * Properties *)

(** ** Text *)

Section TextFacts.

Lemma rstrip_idem s : rstrip (rstrip s) = rstrip s.
Proof.
  induction s as [|c s IH]; [done|]. simpl.
  destruct (rstrip s) as [|d r] eqn:E.
  - destruct (is_space c) eqn:Hc; simpl; [done|]. by rewrite Hc.
  - simpl in *. by rewrite IH.
Qed.

Lemma lstrip_head s c r : lstrip s = String c r -> is_space c = false.
Proof.
  induction s as [|d s IH]; simpl; [done|].
  destruct (is_space d) eqn:Hd; [done|]. by intros [= <- <-].
Qed.

Lemma rstrip_head c s : is_space c = false -> exists r, rstrip (String c s) = String c r.
Proof.
  intros Hc. simpl. destruct (rstrip s); rewrite ?Hc; eauto.
Qed.

Lemma strip_idem s : strip (strip s) = strip s.
Proof.
  unfold strip. destruct (lstrip s) as [|c r] eqn:E; [done|].
  apply lstrip_head in E.
  destruct (rstrip_head c r E) as [r' Hr].
  rewrite Hr. cbn [lstrip]. rewrite E, <- Hr. apply rstrip_idem.
Qed.

End TextFacts.

(** ** Classification *)

Section ClassifyFacts.

Lemma classify_unfold col :
  classify col = classify_spec col.
Proof.
  unfold classify, classify_spec, rules.
  cbn [first_match existsb].
  repeat match goal with
         | |- context [contains ?k ?s] => destruct (contains k s); cbn [orb default]
         end; reflexivity.
Qed.

Lemma classify_cases col :
  classify col ∈ canonical \/
  (classify col = strip col /\ first_match rules (lower (strip col)) = None).
Proof.
  rewrite classify_unfold. unfold classify_spec.
  destruct (first_match rules (lower (strip col))) as [c|] eqn:E; [left|by right].
  revert E. unfold rules. cbn [first_match].
  repeat match goal with
         | |- context [if ?b then _ else _] => destruct b
         end; intros [= <-]; unfold canonical; set_solver.
Qed.

Lemma classify_canonical key : key ∈ canonical -> classify key = key.
Proof.
  unfold canonical. rewrite !elem_of_cons, elem_of_nil.
  intros [->|[->|[->|[]]]]; reflexivity.
Qed.

(** Every name the classifier produces is a fixed point of the classifier. *)
Lemma classify_idem col : classify (classify col) = classify col.
Proof.
  destruct (classify_cases col) as [H|[H E]].
  - by apply classify_canonical.
  - rewrite H, classify_unfold. unfold classify_spec.
    by rewrite strip_idem, E.
Qed.

Lemma build_col_map_from (m : gmap string string) labels l :
  foldl (fun m col => <[col := classify col]> m) m labels !! l
  = if decide (l ∈ labels) then Some (classify l) else m !! l.
Proof.
  revert m. induction labels as [|a labels IH]; intros m; cbn [foldl].
  - case_decide as H; [by apply elem_of_nil in H|done].
  - rewrite IH. destruct (decide (l ∈ labels)) as [Hin|Hnin].
    + rewrite decide_True; [done|by right].
    + destruct (decide (a = l)) as [->|Hne].
      * rewrite lookup_insert_eq, decide_True; [done|by left].
      * rewrite lookup_insert_ne by done.
        rewrite decide_False; [done|].
        rewrite elem_of_cons. intros [?|?]; congruence.
Qed.

Lemma build_col_map_lookup labels l :
  l ∈ labels -> build_col_map labels !! l = Some (classify l).
Proof.
  intros H. unfold build_col_map. rewrite build_col_map_from.
  by rewrite decide_True.
Qed.

Lemma rename_labels_classify labels :
  rename_label (build_col_map labels) <$> labels = classify <$> labels.
Proof.
  apply list_fmap_ext. intros i l Hl. unfold rename_label.
  rewrite build_col_map_lookup; [done|]. by eapply list_elem_of_lookup_2.
Qed.

(** C2. The value the loop stores for a column is decided by the first rule,
    in the order Date, Revenue, Expenses, one of whose keywords occurs in the
    trimmed, lower-cased name, and is the trimmed name when no rule applies;
    renaming a table's labels through the dictionary built from them gives
    every label its class. *)
Theorem classify_first_match_precedence :
  (forall col, classify col = classify_spec col) /\
  (forall labels, rename_label (build_col_map labels) <$> labels = classify <$> labels).
Proof. split; [apply classify_unfold | apply rename_labels_classify]. Qed.

(** A name matching the Date rule and the Revenue rule is a Date; one
    matching the Revenue rule and the Expenses rule is a Revenue; surrounding
    blanks go, inner text and case of an unclassified name stay. *)
Example classify_examples :
  classify "  Sales Month " = "Date" /\
  classify "Cost of Sales" = "Revenue" /\
  classify "COSTS" = "Expenses" /\
  classify "  Region Name  " = "Region Name".
Proof. repeat split. Qed.

End ClassifyFacts.

(** ** Frames: selecting and assigning columns *)

Section FrameFacts.
Context {num : Type} `{!Numeric num, !Pandas num}.

Local Abbreviation cell := (cell num).
Local Abbreviation DataFrame := (DataFrame num).
Local Abbreviation column := (string * list cell)%type.
Local Abbreviation sel key cs := (filter (fun c : column => c.1 = key) cs).

Lemma length_filter_fmap {A B} (f : A -> B) (P : B -> Prop)
    `{!forall x, Decision (P x)} (l : list A) :
  length (filter P (f <$> l)) = length (filter (P ∘ f) l).
Proof.
  induction l as [|a l IH]; [done|].
  rewrite fmap_cons, !filter_cons. simpl.
  destruct (decide (P (f a))); simpl; by rewrite IH.
Qed.

Lemma sel_fmap key (g : column -> column) (cs : list column) :
  (forall c, (g c).1 = c.1) -> sel key (g <$> cs) = g <$> sel key cs.
Proof.
  intros Hg. induction cs as [|a cs IH]; [done|].
  rewrite fmap_cons, !filter_cons, Hg.
  destruct (decide (a.1 = key)); by rewrite IH.
Qed.

Lemma sel_elem key (cs : list column) c : c ∈ sel key cs <-> c.1 = key /\ c ∈ cs.
Proof. by rewrite list_elem_of_filter. Qed.

Lemma has_column_true key (df : DataFrame) :
  has_column key df = true <-> sel key (cols df) <> [].
Proof.
  unfold has_column, columns. rewrite bool_decide_eq_true, list_elem_of_fmap.
  split.
  - intros (c & Hk & Hin) E.
    assert (c ∈ sel key (cols df)) as H by by apply sel_elem.
    rewrite E in H. by apply elem_of_nil in H.
  - intros Hne. destruct (sel key (cols df)) as [|c cs] eqn:E; [done|].
    assert (c ∈ sel key (cols df)) as [? ?]%sel_elem by (rewrite E; left).
    by exists c.
Qed.

Lemma has_column_false key (df : DataFrame) :
  has_column key df = false <-> sel key (cols df) = [].
Proof.
  rewrite <- not_true_iff_false, has_column_true.
  destruct (sel key (cols df)); naive_solver.
Qed.

Lemma has_column_elem key (df : DataFrame) :
  has_column key df = true <-> key ∈ columns df.
Proof. unfold has_column. apply bool_decide_eq_true. Qed.

(** Rewriting the columns labelled [key] with the cells computed from the
    only such column is the same as rewriting each by [f]. *)
Lemma setitem_single key (f : list cell -> list cell) (cs : list column) c :
  sel key cs = [c] ->
  (fun c' : column => if decide (c'.1 = key) then (c'.1, f c.2) else c') <$> cs
  = (fun c' : column => if decide (c'.1 = key) then (c'.1, f c'.2) else c') <$> cs.
Proof.
  intros E. apply list_fmap_ext. intros i c' Hc'.
  destruct (decide (c'.1 = key)) as [Hk|]; [|done].
  assert (c' ∈ sel key cs) as Hin.
  { apply sel_elem. split; [done|]. by eapply list_elem_of_lookup_2. }
  rewrite E in Hin. apply list_elem_of_singleton in Hin. by subst.
Qed.

Lemma coerce_step_assign key conv (f : list cell -> list cell) dflt (df : DataFrame) :
  (forall s, conv (Series s) = Ok (f s)) ->
  length (sel key (cols df)) <= 1 ->
  coerce_step key conv dflt df = Ok (assign key f dflt df).
Proof.
  intros Hconv Hlen. unfold coerce_step, assign, setitem_scalar, setitem, getitem.
  destruct (has_column key df) eqn:Hhas; [|done].
  apply has_column_true in Hhas.
  destruct (sel key (cols df)) as [|c [|c' cs]] eqn:E; [done| |simpl in Hlen; lia].
  cbn. rewrite Hconv. cbn. f_equal. f_equal.
  rewrite <- (setitem_single key f (cols df) c E).
  apply list_fmap_ext. intros i x Hx. by destruct (decide (x.1 = key)).
Qed.

Lemma coerce_step_raise key conv dflt (df : DataFrame) e :
  (forall cs, conv (Frame cs) = Raise e) ->
  2 <= length (sel key (cols df)) ->
  coerce_step key conv dflt df = Raise e.
Proof.
  intros Hconv Hlen. unfold coerce_step, getitem.
  destruct (sel key (cols df)) as [|c [|c' cs]] eqn:E; simpl in Hlen; try lia.
  assert (has_column key df = true) as ->.
  { apply has_column_true. by rewrite E. }
  cbn. by rewrite Hconv.
Qed.

Lemma nrows_assign key f dflt (df : DataFrame) :
  nrows (assign key f dflt df) = nrows df.
Proof. unfold assign. by destruct (has_column key df). Qed.

Lemma sel_assign_same key f dflt (df : DataFrame) :
  length (sel key (cols df)) <= 1 ->
  sel key (cols (assign key f dflt df))
  = [(key, match sel key (cols df) with
           | c :: _ => f c.2
           | [] => replicate (nrows df) dflt
           end)].
Proof.
  intros Hlen. unfold assign.
  destruct (has_column key df) eqn:Hhas; cbn [cols].
  - apply has_column_true in Hhas.
    rewrite sel_fmap by (intros c; by destruct (decide (c.1 = key))).
    destruct (sel key (cols df)) as [|c [|c' cs]] eqn:E; [done| |simpl in Hlen; lia].
    assert (c ∈ sel key (cols df)) as [Hk _]%sel_elem by (rewrite E; left).
    cbn. by rewrite decide_True, Hk.
  - apply has_column_false in Hhas. rewrite filter_app, Hhas.
    by rewrite filter_cons_True.
Qed.

Lemma sel_assign_other key key' f dflt (df : DataFrame) :
  key <> key' ->
  sel key' (cols (assign key f dflt df)) = sel key' (cols df).
Proof.
  intros Hne. unfold assign. destruct (has_column key df); cbn [cols].
  - induction (cols df) as [|a cs IH]; [done|].
    rewrite fmap_cons, !filter_cons.
    destruct (decide (a.1 = key)) as [Ha|Ha]; cbn [fst].
    + rewrite !decide_False by congruence. apply IH.
    + destruct (decide (a.1 = key')); by rewrite IH.
  - rewrite filter_app, filter_cons_False, filter_nil, app_nil_r; [done|].
    simpl. congruence.
Qed.

Lemma assign_lookup key f dflt (df : DataFrame) i (c : column) :
  cols df !! i = Some c ->
  cols (assign key f dflt df) !! i
  = Some (if decide (c.1 = key) then (c.1, f c.2) else c).
Proof.
  intros Hi. unfold assign. destruct (has_column key df) eqn:Hhas; cbn [cols].
  - by rewrite list_lookup_fmap, Hi.
  - rewrite lookup_app_l by by eapply lookup_lt_Some.
    rewrite decide_False; [done|]. intros Hk.
    apply has_column_false in Hhas.
    assert (c ∈ sel key (cols df)) as Hin.
    { apply sel_elem. split; [done|]. by eapply list_elem_of_lookup_2. }
    rewrite Hhas in Hin. by apply elem_of_nil in Hin.
Qed.

Lemma assign_elem key f dflt (df : DataFrame) (c : column) :
  c ∈ cols (assign key f dflt df) ->
  c.1 ≠ key ∧ c ∈ cols df ∨
  (∃ c0, c0 ∈ cols df ∧ c0.1 = key ∧ c = (key, f c0.2)) ∨
  (key ∉ columns df) ∧ c = (key, replicate (nrows df) dflt).
Proof.
  unfold assign. destruct (has_column key df) eqn:Hhas; cbn [cols].
  - rewrite list_elem_of_fmap. intros (c0 & -> & Hin).
    destruct (decide (c0.1 = key)) as [Hk|Hk]; [right; left|left]; [|done].
    exists c0. by rewrite Hk.
  - rewrite elem_of_app, list_elem_of_singleton. intros [Hin| ->].
    + left. split; [|done]. intros Hk.
      apply not_true_iff_false in Hhas. apply Hhas, has_column_elem.
      rewrite <- Hk. unfold columns. by apply list_elem_of_fmap_2.
    + right; right. split; [|done].
      rewrite <- has_column_elem. by rewrite Hhas.
Qed.

Lemma assign_length key f dflt (df : DataFrame) :
  length (cols (assign key f dflt df))
  = length (cols df) + (1 - length (sel key (cols df))).
Proof.
  unfold assign. destruct (has_column key df) eqn:Hhas; cbn [cols].
  - apply has_column_true in Hhas. rewrite length_fmap.
    destruct (sel key (cols df)); [done|]. simpl. lia.
  - apply has_column_false in Hhas. rewrite length_app, Hhas. done.
Qed.

Lemma wf_assign key f dflt (df : DataFrame) :
  (forall s, length (f s) = length s) -> wf df -> wf (assign key f dflt df).
Proof.
  intros Hf Hwf. unfold wf. rewrite nrows_assign. apply Forall_forall.
  intros c [[_ Hin]|[(c0 & Hin & _ & ->)|[_ ->]]]%assign_elem.
  - by eapply Forall_forall in Hwf.
  - eapply Forall_forall in Hwf; [|done]. simpl. by rewrite Hf.
  - simpl. apply length_replicate.
Qed.

(** *** The renaming step *)

Lemma cols_rename_classify (df : DataFrame) :
  cols (rename (build_col_map (columns df)) df)
  = prod_map classify id <$> cols df.
Proof.
  unfold rename. cbn [cols]. apply list_fmap_ext. intros i [l s] Hi.
  unfold prod_map, rename_label. cbn [fst snd]. f_equal.
  rewrite build_col_map_lookup; [done|].
  unfold columns. apply list_elem_of_fmap. exists (l, s).
  split; [done|]. by eapply list_elem_of_lookup_2.
Qed.

Lemma occurrences_sel key (df : DataFrame) :
  occurrences key df
  = length (sel key (cols (rename (build_col_map (columns df)) df))).
Proof.
  rewrite cols_rename_classify. unfold occurrences, columns.
  by rewrite !length_filter_fmap.
Qed.

(** *** The standardizer, step by step *)

Lemma standardize_steps (df : DataFrame) :
  _standardize_dataframe df
  = (d ← coerce_step "Date" to_datetime CNaT (rename (build_col_map (columns df)) df);
     d ← coerce_step "Revenue" numeric_conv (CNum nzero) d;
     coerce_step "Expenses" numeric_conv (CNum nzero) d).
Proof.
  unfold _standardize_dataframe, coerce_step, numeric_conv.
  set (r := rename _ df). clearbody r.
  assert (forall (key : string) (d : DataFrame) (k : DataFrame -> result DataFrame),
    ((if has_column key d
      then s ← getitem d key; v ← to_numeric s; mret (setitem d key (fillna nzero v))
      else mret (setitem_scalar d key (CNum nzero))) ≫= k)
    = ((if has_column key d
        then s ← getitem d key; v ← (v ← to_numeric s; mret (fillna nzero v));
             mret (setitem d key v)
        else mret (setitem_scalar d key (CNum nzero))) ≫= k)) as Hstep.
  { intros key d k. destruct (has_column key d); [|done].
    destruct (getitem d key) as [[s|cs]|e]; done. }
  destruct (if has_column "Date" r then _ else _) as [d1|e]; [|done].
  cbn [mbind result_bind]. rewrite Hstep.
  destruct (if has_column "Revenue" d1 then _ else _) as [d2|e]; [|done].
  cbn [mbind result_bind].
  destruct (has_column "Expenses" d2); [|done].
  destruct (getitem d2 "Expenses") as [[s|cs]|e]; done.
Qed.

Lemma unambiguous_sel (df : DataFrame) key :
  unambiguous df -> key ∈ canonical ->
  length (sel key (cols (rename (build_col_map (columns df)) df))) <= 1.
Proof.
  intros Hu Hk. rewrite <- occurrences_sel.
  unfold unambiguous in Hu. by eapply Forall_forall in Hu.
Qed.

Lemma to_datetime_series (s : list cell) : to_datetime (Series s) = Ok (datetime_column s).
Proof. done. Qed.

Lemma numeric_conv_series (s : list cell) : numeric_conv (Series s) = Ok (numeric_column s).
Proof. done. Qed.

(** On an unambiguous table the standardizer returns, and returns the closed
    form. *)
Lemma standardize_unambiguous (df : DataFrame) :
  unambiguous df -> _standardize_dataframe df = Ok (standard_form df).
Proof.
  intros Hu. rewrite standardize_steps. unfold standard_form.
  set (r := rename _ df).
  assert (forall key, key ∈ canonical -> length (sel key (cols r)) <= 1) as Hr
    by (intros; by apply unambiguous_sel).
  rewrite (coerce_step_assign _ _ datetime_column) by
    (try done; apply Hr; unfold canonical; set_solver).
  cbn [mbind result_bind].
  rewrite (coerce_step_assign _ _ numeric_column); try done.
  2:{ rewrite sel_assign_other by done. apply Hr. unfold canonical; set_solver. }
  cbn [mbind result_bind].
  rewrite (coerce_step_assign _ _ numeric_column); try done.
  rewrite !sel_assign_other by done. apply Hr. unfold canonical; set_solver.
Qed.

(** On any other table it raises. *)
Lemma standardize_ambiguous (df : DataFrame) :
  ¬ unambiguous df -> exists e, _standardize_dataframe df = Raise e.
Proof.
  intros Hu. rewrite standardize_steps.
  set (r := rename _ df).
  assert (forall key, length (sel key (cols r)) = occurrences key df) as Hr
    by (intros; by rewrite occurrences_sel).
  destruct (decide (occurrences "Date" df <= 1)) as [HD|HD].
  2:{ eexists. erewrite coerce_step_raise; [done|intros cs; reflexivity|].
      rewrite Hr. lia. }
  rewrite (coerce_step_assign _ _ datetime_column) by (try done; by rewrite Hr).
  cbn [mbind result_bind].
  destruct (decide (occurrences "Revenue" df <= 1)) as [HR|HR].
  2:{ eexists. erewrite coerce_step_raise; [done|intros cs; reflexivity|].
      rewrite sel_assign_other, Hr by done. lia. }
  rewrite (coerce_step_assign _ _ numeric_column); try done.
  2:{ by rewrite sel_assign_other, Hr. }
  cbn [mbind result_bind].
  destruct (decide (occurrences "Expenses" df <= 1)) as [HE|HE].
  { exfalso. apply Hu. unfold unambiguous, canonical.
    repeat (apply Forall_cons; split; [done|]). apply Forall_nil_2. }
  eexists. erewrite coerce_step_raise; [done|intros cs; reflexivity|].
  rewrite !sel_assign_other, Hr by done. lia.
Qed.

Lemma standardize_Ok_inv (df out : DataFrame) :
  _standardize_dataframe df = Ok out -> unambiguous df /\ out = standard_form df.
Proof.
  intros H. destruct (decide (unambiguous df)) as [Hu|Hu].
  - rewrite standardize_unambiguous in H by done. split; congruence.
  - destruct (standardize_ambiguous df Hu) as [e He]. congruence.
Qed.

(** *** What the closed form contains *)

Lemma datetime_column_typed (s : list cell) : Forall is_datetime (datetime_column s).
Proof.
  unfold datetime_column. apply Forall_fmap, Forall_forall. intros c _.
  unfold to_datetime_cell. simpl.
  destruct c; try done; by destruct (parse_datetime s _).
Qed.

Lemma numeric_column_typed (s : list cell) : Forall is_numeric (numeric_column s).
Proof.
  unfold numeric_column, fillna. rewrite <- list_fmap_compose.
  apply Forall_fmap, Forall_forall. intros c _.
  unfold to_numeric_cell. simpl.
  destruct c; try done; by destruct (parse_numeric _).
Qed.

Lemma datetime_column_fixed (s : list cell) :
  Forall is_datetime s -> datetime_column s = s.
Proof.
  intros H. unfold datetime_column. generalize s at 1. intros ctx.
  induction H as [|c s Hc _ IH]; [done|].
  rewrite fmap_cons, IH. by destruct c.
Qed.

Lemma numeric_column_fixed (s : list cell) :
  Forall is_numeric s -> numeric_column s = s.
Proof.
  intros H. unfold numeric_column, fillna.
  induction H as [|c s Hc _ IH]; [done|].
  rewrite !fmap_cons, IH. by destruct c.
Qed.

Lemma numeric_column_lookup (s : list cell) i c :
  s !! i = Some c ->
  numeric_column s !! i
  = Some (if is_numeric (to_numeric_cell c) then to_numeric_cell c else CNum nzero).
Proof.
  intros Hi. unfold numeric_column, fillna.
  rewrite !list_lookup_fmap, Hi. cbn. f_equal.
  unfold to_numeric_cell. destruct c; try done; by destruct (parse_numeric _).
Qed.

Lemma datetime_column_lookup (s : list cell) i c :
  s !! i = Some c ->
  datetime_column s !! i = Some (to_datetime_cell s c).
Proof. intros Hi. unfold datetime_column. by rewrite list_lookup_fmap, Hi. Qed.

Lemma length_numeric_column (s : list cell) : length (numeric_column s) = length s.
Proof. unfold numeric_column, fillna. by rewrite !length_fmap. Qed.

Lemma length_datetime_column (s : list cell) : length (datetime_column s) = length s.
Proof. unfold datetime_column. by rewrite length_fmap. Qed.

Lemma renamed_elem (df : DataFrame) l s :
  (l, s) ∈ cols df ->
  (classify l, s) ∈ cols (rename (build_col_map (columns df)) df).
Proof.
  intros Hin. rewrite cols_rename_classify.
  apply list_elem_of_fmap. by exists (l, s).
Qed.

Lemma renamed_elem_inv (df : DataFrame) (c : column) :
  c ∈ cols (rename (build_col_map (columns df)) df) ->
  exists l, (l, c.2) ∈ cols df /\ c.1 = classify l.
Proof.
  rewrite cols_rename_classify, list_elem_of_fmap.
  intros ([l s] & -> & Hin). by exists l.
Qed.

(** The only column classified as [key], seen after the renaming. *)
Lemma renamed_sel_present (df : DataFrame) key l s :
  occurrences key df <= 1 -> (l, s) ∈ cols df -> classify l = key ->
  sel key (cols (rename (build_col_map (columns df)) df)) = [(key, s)].
Proof.
  intros Hocc Hin Hk. rewrite occurrences_sel in Hocc.
  assert ((key, s) ∈ sel key (cols (rename (build_col_map (columns df)) df))) as H.
  { apply sel_elem. split; [done|]. rewrite <- Hk. by apply renamed_elem. }
  destruct (sel key _) as [|c [|c' cs]]; [by apply elem_of_nil in H| |simpl in Hocc; lia].
  apply list_elem_of_singleton in H. by subst.
Qed.

Lemma renamed_sel_absent (df : DataFrame) key :
  key ∉ classify <$> columns df ->
  sel key (cols (rename (build_col_map (columns df)) df)) = [].
Proof.
  intros Hk. destruct (sel key _) as [|c cs] eqn:E; [done|]. exfalso. apply Hk.
  assert (c ∈ sel key (cols (rename (build_col_map (columns df)) df)))
    as [Hc (l & Hin & Hl)%renamed_elem_inv]%sel_elem by (rewrite E; left).
  apply list_elem_of_fmap. exists l. split; [congruence|].
  unfold columns. apply list_elem_of_fmap. by exists (l, c.2).
Qed.

(** The three canonical columns of the closed form, each selected alone. *)
Lemma standard_form_sel (df : DataFrame) :
  unambiguous df ->
  let r := rename (build_col_map (columns df)) df in
  sel "Date" (cols (standard_form df))
    = [("Date", match sel "Date" (cols r) with
                | c :: _ => datetime_column c.2
                | [] => replicate (nrows df) CNaT
                end)] /\
  sel "Revenue" (cols (standard_form df))
    = [("Revenue", match sel "Revenue" (cols r) with
                   | c :: _ => numeric_column c.2
                   | [] => replicate (nrows df) (CNum nzero)
                   end)] /\
  sel "Expenses" (cols (standard_form df))
    = [("Expenses", match sel "Expenses" (cols r) with
                    | c :: _ => numeric_column c.2
                    | [] => replicate (nrows df) (CNum nzero)
                    end)].
Proof.
  intros Hu r. unfold standard_form. fold r.
  assert (forall key, key ∈ canonical -> length (sel key (cols r)) <= 1) as Hr
    by (intros; by apply unambiguous_sel).
  assert (nrows r = nrows df) as Hn by done.
  repeat split.
  - rewrite !sel_assign_other by done. rewrite sel_assign_same, Hn; [done|].
    apply Hr. unfold canonical; set_solver.
  - rewrite sel_assign_other by done. rewrite sel_assign_same.
    + by rewrite sel_assign_other, nrows_assign, Hn.
    + rewrite sel_assign_other by done. apply Hr. unfold canonical; set_solver.
  - rewrite sel_assign_same.
    + by rewrite !sel_assign_other, !nrows_assign, Hn.
    + rewrite !sel_assign_other by done. apply Hr. unfold canonical; set_solver.
Qed.

Lemma assign_lookup_other key f dflt (df : DataFrame) i (c : column) :
  cols df !! i = Some c -> c.1 ≠ key ->
  cols (assign key f dflt df) !! i = Some c.
Proof.
  intros Hi Hk. erewrite assign_lookup by done. by rewrite decide_False.
Qed.

Lemma standard_form_lookup (df : DataFrame) i l s :
  cols df !! i = Some (l, s) -> classify l ∉ canonical ->
  cols (standard_form df) !! i = Some (strip l, s).
Proof.
  intros Hi Hl.
  assert (classify l = strip l) as Hs by (destruct (classify_cases l) as [?|[? _]]; done).
  assert (cols (rename (build_col_map (columns df)) df) !! i = Some (strip l, s)) as Hr.
  { by rewrite cols_rename_classify, list_lookup_fmap, Hi, <- Hs. }
  assert (forall key, key ∈ canonical -> (strip l, s).1 ≠ key) as Hne.
  { intros key Hk. cbn. rewrite <- Hs. by intros <-. }
  unfold standard_form.
  repeat (apply assign_lookup_other; [|apply Hne; unfold canonical; set_solver]).
  done.
Qed.

Lemma length_cols_partition (cs : list column) :
  length cs
  = length (filter (fun l => l = "Date") (classify <$> cs.*1))
    + length (filter (fun l => l = "Revenue") (classify <$> cs.*1))
    + length (filter (fun l => l = "Expenses") (classify <$> cs.*1))
    + length (filter (fun c : column => classify c.1 ∉ canonical) cs).
Proof.
  induction cs as [|a cs IH]; [done|].
  rewrite !fmap_cons, !filter_cons. cbn [length].
  assert (classify a.1 ∉ canonical <->
          classify a.1 ≠ "Date" /\ classify a.1 ≠ "Revenue" /\ classify a.1 ≠ "Expenses")
    as Hcanon.
  { unfold canonical. rewrite !not_elem_of_cons. pose proof (not_elem_of_nil (classify a.1)).
    tauto. }
  destruct (decide (classify a.1 ∉ canonical)) as [HP|HP]; rewrite Hcanon in HP.
  - destruct HP as (HD & HR & HE). rewrite !decide_False by done. cbn [length]. lia.
  - destruct (decide (classify a.1 = "Date")) as [HD|HD].
    { rewrite !decide_False by (rewrite HD; done). cbn [length]. lia. }
    destruct (decide (classify a.1 = "Revenue")) as [HR|HR].
    { rewrite !decide_False by (rewrite HR; done). cbn [length]. lia. }
    destruct (decide (classify a.1 = "Expenses")) as [HE|HE]; [|tauto].
    cbn [length]. lia.
Qed.

Lemma standard_form_length (df : DataFrame) :
  unambiguous df ->
  length (cols (standard_form df)) = 3 + length (passthrough df).
Proof.
  intros Hu. unfold standard_form.
  rewrite !assign_length, !sel_assign_other by done.
  set (r := rename _ df).
  assert (length (cols r) = length (cols df)) as -> by (unfold r, rename; cbn; apply length_fmap).
  unfold r. rewrite <- !occurrences_sel.
  assert (forall key, key ∈ canonical -> occurrences key df <= 1) as Ho.
  { intros key Hk. unfold unambiguous in Hu. by eapply Forall_forall in Hu. }
  pose proof (Ho "Date" ltac:(unfold canonical; set_solver)).
  pose proof (Ho "Revenue" ltac:(unfold canonical; set_solver)).
  pose proof (Ho "Expenses" ltac:(unfold canonical; set_solver)).
  rewrite (length_cols_partition (cols df)) at 1.
  unfold occurrences, columns, passthrough in *. lia.
Qed.

(** Labels of the closed form are fixed points of the classifier, and its
    canonical columns hold cells of their kind. *)
Lemma standard_form_inv (df : DataFrame) (c : column) :
  c ∈ cols (standard_form df) ->
  classify c.1 = c.1 /\
  (c.1 = "Date" -> Forall is_datetime c.2) /\
  (c.1 = "Revenue" -> Forall is_numeric c.2) /\
  (c.1 = "Expenses" -> Forall is_numeric c.2).
Proof.
  unfold standard_form.
  intros [[HE [[HR [[HD Hin]|[(c0 & _ & _ & ->)|[_ ->]]]%assign_elem]
                   |[(c0 & _ & _ & ->)|[_ ->]]]%assign_elem]
         |[(c0 & _ & _ & ->)|[_ ->]]]%assign_elem; cbn [fst snd].
  - apply renamed_elem_inv in Hin as (l & _ & Hl).
    split; [rewrite Hl; apply classify_idem|]. repeat split; done.
  - repeat split; try done. intros _. apply datetime_column_typed.
  - repeat split; try done. intros _. by apply Forall_replicate.
  - repeat split; try done. intros _. apply numeric_column_typed.
  - repeat split; try done. intros _. by apply Forall_replicate.
  - repeat split; try done. intros _. apply numeric_column_typed.
  - repeat split; try done. intros _. by apply Forall_replicate.
Qed.

Lemma wf_rename m (df : DataFrame) : wf df -> wf (rename m df).
Proof.
  unfold wf, rename. cbn. intros H. apply Forall_fmap.
  eapply Forall_impl; [done|]. by intros [l s].
Qed.

Lemma wf_standard_form (df : DataFrame) : wf df -> wf (standard_form df).
Proof.
  intros H. unfold standard_form.
  repeat apply wf_assign;
    auto using length_numeric_column, length_datetime_column, wf_rename.
Qed.

Lemma nrows_standard_form (df : DataFrame) : nrows (standard_form df) = nrows df.
Proof. unfold standard_form. by rewrite !nrows_assign. Qed.

(** Every input column keeps its position; its label becomes its class and
    its cells are coerced according to the class. *)
Lemma standard_form_lookup_class (df : DataFrame) i l s :
  cols df !! i = Some (l, s) ->
  cols (standard_form df) !! i
  = Some (classify l,
          if decide (classify l = "Date") then datetime_column s
          else if decide (classify l ∈ ["Revenue"; "Expenses"]) then numeric_column s
          else s).
Proof.
  intros Hi.
  assert (cols (rename (build_col_map (columns df)) df) !! i = Some (classify l, s)) as Hr.
  { by rewrite cols_rename_classify, list_lookup_fmap, Hi. }
  pose proof (assign_lookup "Date" datetime_column CNaT _ _ _ Hr) as H1.
  pose proof (assign_lookup "Revenue" numeric_column (CNum nzero) _ _ _ H1) as H2.
  pose proof (assign_lookup "Expenses" numeric_column (CNum nzero) _ _ _ H2) as H3.
  unfold standard_form. rewrite H3. clear H1 H2 H3 Hr. f_equal.
  assert (classify l ∈ ["Revenue"; "Expenses"]
          <-> classify l = "Revenue" \/ classify l = "Expenses") as Hin.
  { rewrite !elem_of_cons, elem_of_nil. tauto. }
  cbn [fst snd].
  destruct (decide (classify l = "Date")) as [HD|HD]; cbn [fst snd].
  { rewrite HD. by rewrite !decide_False. }
  destruct (decide (classify l ∈ ["Revenue"; "Expenses"])) as [Hm|Hm]; rewrite Hin in Hm;
    destruct (decide (classify l = "Revenue")) as [HR|HR]; cbn [fst snd];
    destruct (decide (classify l = "Expenses")) as [HE|HE]; cbn [fst snd];
    try done; try tauto; congruence.
Qed.

Lemma numeric_column_coerce (s : list cell) :
  numeric_column s
  = (fun c => if is_numeric (to_numeric_cell c) then to_numeric_cell c else CNum nzero) <$> s.
Proof.
  apply list_eq. intros i. destruct (s !! i) as [c|] eqn:E.
  - rewrite (numeric_column_lookup _ _ _ E). by rewrite list_lookup_fmap, E.
  - unfold numeric_column, fillna. by rewrite !list_lookup_fmap, E.
Qed.

(** Assigning to a column what it already holds changes nothing. *)
Lemma assign_fixed key f dflt (df : DataFrame) :
  key ∈ columns df ->
  (forall c : column, c ∈ cols df -> c.1 = key -> f c.2 = c.2) ->
  assign key f dflt df = df.
Proof.
  intros Hin Hf. unfold assign.
  apply has_column_elem in Hin as ->. destruct df as [cs n]. cbn in *. f_equal.
  rewrite <- (list_fmap_id cs) at 2. apply list_fmap_ext. intros i [l s] Hi.
  destruct (decide _) as [Hk|]; [|done]. cbn in *. f_equal.
  apply (Hf (l, s)); [|done]. by eapply list_elem_of_lookup_2.
Qed.

Lemma rename_fixed (df : DataFrame) :
  (forall c : column, c ∈ cols df -> classify c.1 = c.1) ->
  rename (build_col_map (columns df)) df = df.
Proof.
  intros Hfix.
  assert (cols (rename (build_col_map (columns df)) df) = cols df) as H.
  { rewrite cols_rename_classify. rewrite <- (list_fmap_id (cols df)) at 2.
    apply list_fmap_ext. intros i [l s] Hi. unfold prod_map. cbn.
    f_equal. apply (Hfix (l, s)). by eapply list_elem_of_lookup_2. }
  destruct df as [cs n]. unfold rename in *. cbn in *. by rewrite H.
Qed.

Lemma sel_singleton_elem key (cs : list column) s :
  sel key cs = [(key, s)] -> key ∈ cs.*1.
Proof.
  intros E. assert ((key, s) ∈ sel key cs) as [_ Hin]%sel_elem by (rewrite E; left).
  apply list_elem_of_fmap. by exists (key, s).
Qed.

Lemma standard_form_fixed (df : DataFrame) :
  unambiguous df ->
  unambiguous (standard_form df) /\ standard_form (standard_form df) = standard_form df.
Proof.
  intros Hu. set (out := standard_form df).
  destruct (standard_form_sel df Hu) as (HD & HR & HE). fold out in HD, HR, HE.
  assert (rename (build_col_map (columns out)) out = out) as Hren.
  { apply rename_fixed. intros c Hc. by apply standard_form_inv in Hc as [? _]. }
  split.
  - unfold unambiguous, canonical.
    repeat (apply Forall_cons; split; [rewrite occurrences_sel, Hren|]).
    + by rewrite HD.
    + by rewrite HR.
    + by rewrite HE.
    + apply Forall_nil_2.
  - unfold standard_form at 1. rewrite Hren.
    rewrite (assign_fixed "Date").
    2:{ by eapply sel_singleton_elem. }
    2:{ intros c Hc Hk. apply standard_form_inv in Hc as (_ & Hd & _).
        by apply datetime_column_fixed, Hd. }
    rewrite (assign_fixed "Revenue").
    2:{ by eapply sel_singleton_elem. }
    2:{ intros c Hc Hk. apply standard_form_inv in Hc as (_ & _ & Hd & _).
        by apply numeric_column_fixed, Hd. }
    rewrite (assign_fixed "Expenses"); [done| |].
    { by eapply sel_singleton_elem. }
    intros c Hc Hk. apply standard_form_inv in Hc as (_ & _ & _ & Hd).
    by apply numeric_column_fixed, Hd.
Qed.

(** ** The standardizer: the claims *)

(** C1. A table returned by the standardizer has one [Date], one [Revenue]
    and one [Expenses] column.  [Revenue] and [Expenses] hold numbers only:
    the coerced cells of the input column of that class, with 0 wherever the
    coercion gives no number, or 0 throughout when the input has no such
    column.  [Date] holds timestamps or [NaT] only: the parsed cells of the
    input column, or [NaT] throughout when the input has none.  Unclassified
    columns keep their position and cells under their trimmed name, and the
    table has exactly three columns more than there are unclassified ones. *)
Theorem standardize_canonical_columns (df out : DataFrame) :
  _standardize_dataframe df = Ok out ->
  (exists date rev exp,
      getitem out "Date" = Ok (Series date) /\
      getitem out "Revenue" = Ok (Series rev) /\
      getitem out "Expenses" = Ok (Series exp) /\
      Forall is_datetime date /\ Forall is_numeric rev /\ Forall is_numeric exp /\
      (forall l s, (l, s) ∈ cols df -> classify l = "Date" ->
         date = to_datetime_cell s <$> s) /\
      (forall l s, (l, s) ∈ cols df -> classify l = "Revenue" ->
         rev = (fun c => if is_numeric (to_numeric_cell c) then to_numeric_cell c
                         else CNum nzero) <$> s) /\
      (forall l s, (l, s) ∈ cols df -> classify l = "Expenses" ->
         exp = (fun c => if is_numeric (to_numeric_cell c) then to_numeric_cell c
                         else CNum nzero) <$> s) /\
      ("Date" ∉ classify <$> columns df -> date = replicate (nrows df) CNaT) /\
      ("Revenue" ∉ classify <$> columns df -> rev = replicate (nrows df) (CNum nzero)) /\
      ("Expenses" ∉ classify <$> columns df -> exp = replicate (nrows df) (CNum nzero))) /\
  (forall i l s, cols df !! i = Some (l, s) -> classify l ∉ canonical ->
     cols out !! i = Some (strip l, s)) /\
  length (cols out) = 3 + length (passthrough df).
Proof.
  intros [Hu ->]%standardize_Ok_inv.
  destruct (standard_form_sel df Hu) as (HD & HR & HE).
  assert (forall key, key ∈ canonical -> occurrences key df <= 1) as Ho.
  { intros key Hk. unfold unambiguous in Hu. by eapply Forall_forall in Hu. }
  split; [|split].
  - eexists _, _, _. unfold getitem. rewrite HD, HR, HE. cbn [snd].
    split; [done|]. split; [done|]. split; [done|].
    set (r := rename (build_col_map (columns df)) df).
    split; [|split; [|split]].
    { destruct (sel "Date" (cols r)) as [|c ?];
        [by apply Forall_replicate|apply datetime_column_typed]. }
    { destruct (sel "Revenue" (cols r)) as [|c ?];
        [by apply Forall_replicate|apply numeric_column_typed]. }
    { destruct (sel "Expenses" (cols r)) as [|c ?];
        [by apply Forall_replicate|apply numeric_column_typed]. }
    unfold r. repeat split.
    + intros l s Hin Hl. erewrite renamed_sel_present; [done| |done..].
      apply Ho. unfold canonical; set_solver.
    + intros l s Hin Hl. erewrite renamed_sel_present; [|apply Ho; unfold canonical; set_solver|done..].
      apply numeric_column_coerce.
    + intros l s Hin Hl. erewrite renamed_sel_present; [|apply Ho; unfold canonical; set_solver|done..].
      apply numeric_column_coerce.
    + intros Hno. by rewrite renamed_sel_absent.
    + intros Hno. by rewrite renamed_sel_absent.
    + intros Hno. by rewrite renamed_sel_absent.
  - intros i l s. apply standard_form_lookup.
  - by apply standard_form_length.
Qed.

(** C5. Standardizing a table the standardizer returned gives that table
    back. *)
Theorem standardize_idempotent (df out : DataFrame) :
  _standardize_dataframe df = Ok out ->
  _standardize_dataframe out = Ok out.
Proof.
  intros [Hu ->]%standardize_Ok_inv.
  destruct (standard_form_fixed df Hu) as [Hu' Hfix].
  by rewrite standardize_unambiguous, Hfix.
Qed.

(** C6, as the code has it.  The standardizer returns a table for every input
    in which each of [Date], [Revenue], [Expenses] is the class of at most one
    column, whatever the labels and cells are.  The table is the closed form
    [standard_form]: a missing column is filled with the default, and a cell
    that does not parse becomes the default. *)
Theorem standardize_total_on_unambiguous (df : DataFrame) :
  unambiguous df ->
  exists out, _standardize_dataframe df = Ok out /\
    out = standard_form df /\
    nrows out = nrows df /\
    (forall key, key ∈ canonical -> key ∈ columns out).
Proof.
  intros Hu. exists (standard_form df). split; [by apply standardize_unambiguous|].
  split; [done|]. split; [apply nrows_standard_form|].
  destruct (standard_form_sel df Hu) as (HD & HR & HE).
  intros key. unfold canonical. rewrite !elem_of_cons, elem_of_nil.
  intros [->|[->|[->|[]]]]; unfold columns; by eapply sel_singleton_elem.
Qed.

(** C7, as the code has it.  When two or more columns have the same canonical
    class, the dictionary holds one entry for each original label, the renaming
    keeps every column, each under its class and in its place, and the
    standardizer raises instead of returning a table. *)
Theorem standardize_duplicate_class_raises (df : DataFrame) (key : string) :
  key ∈ canonical -> 2 <= occurrences key df ->
  (forall l, l ∈ columns df -> build_col_map (columns df) !! l = Some (classify l)) /\
  columns (rename (build_col_map (columns df)) df) = classify <$> columns df /\
  length (filter (fun l => l = key) (columns (rename (build_col_map (columns df)) df)))
    = occurrences key df /\
  exists e, _standardize_dataframe df = Raise e.
Proof.
  intros Hk Hocc.
  assert (columns (rename (build_col_map (columns df)) df) = classify <$> columns df) as Hc.
  { unfold columns at 1. rewrite cols_rename_classify. unfold columns.
    rewrite <- !list_fmap_compose. apply list_fmap_ext. by intros i [l s] _. }
  split; [apply build_col_map_lookup|]. split; [done|]. split; [by rewrite Hc|].
  apply standardize_ambiguous. intros Hu.
  unfold unambiguous in Hu. eapply Forall_forall in Hu; [|done]. lia.
Qed.

(** C10. A table returned by the standardizer has the rows of its input:
    the index has the same length, every input column is found at the same
    position with as many cells as before, in the same order, and the cells of
    an unclassified column are the input's; a classified column holds the
    coercion of its own cells, row by row. *)
Theorem standardize_preserves_rows (df out : DataFrame) :
  _standardize_dataframe df = Ok out ->
  nrows out = nrows df /\
  (wf df -> wf out) /\
  forall i l s, cols df !! i = Some (l, s) ->
    exists s', cols out !! i = Some (classify l, s') /\
      length s' = length s /\
      (classify l ∉ canonical -> classify l = strip l /\ s' = s) /\
      (classify l = "Date" -> s' = to_datetime_cell s <$> s) /\
      (classify l = "Revenue" \/ classify l = "Expenses" ->
         s' = fillna_cell nzero ∘ to_numeric_cell <$> s).
Proof.
  intros [Hu ->]%standardize_Ok_inv.
  split; [apply nrows_standard_form|]. split; [apply wf_standard_form|].
  intros i l s Hi. eexists. split; [by apply standard_form_lookup_class|].
  assert (classify l ∈ ["Revenue"; "Expenses"]
          <-> classify l = "Revenue" \/ classify l = "Expenses") as Hin.
  { rewrite !elem_of_cons, elem_of_nil. tauto. }
  assert (classify l ∉ canonical <->
          classify l ≠ "Date" /\ classify l ≠ "Revenue" /\ classify l ≠ "Expenses") as Hcanon.
  { unfold canonical. rewrite !not_elem_of_cons.
    pose proof (not_elem_of_nil (classify l)). tauto. }
  rewrite Hcanon.
  destruct (decide (classify l = "Date")) as [HD|HD];
    [|destruct (decide (classify l ∈ _)) as [HR|HR]; rewrite Hin in HR].
  - rewrite length_datetime_column. repeat split; try done; try tauto.
    rewrite HD. by intros [|].
  - rewrite length_numeric_column. repeat split; try done; try tauto.
    intros _. unfold numeric_column, fillna. by rewrite <- list_fmap_compose.
  - repeat split; try done; try tauto.
    destruct (classify_cases l) as [Hc|[? _]]; [|done].
    exfalso. revert Hc. unfold canonical. rewrite !elem_of_cons, elem_of_nil. tauto.
Qed.

End FrameFacts.

(** ** The merge *)

Section MergeFacts.
Context {num : Type} `{!Numeric num, !Pandas num}.

Local Abbreviation cell := (cell num).
Local Abbreviation DataFrame := (DataFrame num).
Local Abbreviation column := (string * list cell)%type.
Local Abbreviation sel key cs := (filter (fun c : column => c.1 = key) cs).

(** [df[key] = scalar] is an assignment of a constant column. *)
Lemma setitem_scalar_assign (df : DataFrame) key c :
  setitem_scalar df key c = assign key (fun _ => replicate (nrows df) c) c df.
Proof. done. Qed.

Lemma wf_setitem_scalar (df : DataFrame) key c : wf df -> wf (setitem_scalar df key c).
Proof.
  intros Hwf. rewrite setitem_scalar_assign. unfold wf. rewrite nrows_assign.
  apply Forall_forall.
  intros x [[_ Hin]|[(c0 & Hin & _ & ->)|[_ ->]]]%assign_elem.
  - by eapply Forall_forall in Hwf.
  - apply length_replicate.
  - apply length_replicate.
Qed.

Lemma concat_nrows (a b c : DataFrame) :
  concat a b = Ok c -> nrows c = nrows a + nrows b.
Proof.
  unfold concat. destruct (decide _); [by intros [= <-]|].
  destruct (_ && _); [by intros [= <-]|done].
Qed.

Lemma list_find_sel key (cs : list column) c rest :
  sel key cs = c :: rest ->
  exists i, list_find (fun d : column => d.1 = key) cs = Some (i, c).
Proof.
  induction cs as [|a cs IH]; [done|].
  rewrite filter_cons. cbn [list_find].
  destruct (decide (a.1 = key)) as [Ha|Ha].
  - intros [= -> _]. by exists 0.
  - intros [i Hi]%IH. rewrite Hi. by exists (S i).
Qed.

Lemma sel_zip_with key (a b : list column) :
  a.*1 = b.*1 ->
  sel key (zip_with (fun c1 c2 : column => (c1.1, c1.2 ++ c2.2)) a b)
  = zip_with (fun c1 c2 : column => (c1.1, c1.2 ++ c2.2)) (sel key a) (sel key b).
Proof.
  revert b. induction a as [|x a IH]; intros [|y b]; try done.
  rewrite !fmap_cons. intros [= Hxy Hab]. cbn [zip_with].
  rewrite !filter_cons. cbn [fst]. rewrite <- Hxy.
  destruct (decide (x.1 = key)); cbn [zip_with]; by rewrite IH.
Qed.

(** A label carried by one column on each side is carried by one column of
    the concatenation, which stacks the two. *)
Lemma concat_sel_unique key (a b c : DataFrame) x y :
  concat a b = Ok c ->
  sel key (cols a) = [(key, x)] -> sel key (cols b) = [(key, y)] ->
  sel key (cols c) = [(key, x ++ y)].
Proof.
  unfold concat. intros Hc Ha Hb.
  destruct (decide (columns a = columns b)) as [Hab|Hab].
  { injection Hc as <-. cbn [cols]. by rewrite sel_zip_with, Ha, Hb. }
  destruct (_ && _); [|done]. injection Hc as <-. cbn [cols].
  rewrite filter_app, !sel_fmap by done. rewrite Ha.
  destruct (list_find_sel _ _ _ _ Hb) as [i Hi].
  cbn [fmap list_fmap fst snd]. rewrite Hi. cbn [snd].
  match goal with |- _ ++ ?l = _ => assert (l = []) as -> end; [|done].
  destruct (sel key (filter _ (cols b))) as [|d ds] eqn:E; [done|]. exfalso.
  assert (d ∈ sel key (filter (fun d : column => d.1 ∉ columns a) (cols b))) as Hd
    by (rewrite E; left).
  apply sel_elem in Hd as [Hk Hd0].
  apply list_elem_of_filter in Hd0 as [Hnot _]. apply Hnot.
  rewrite Hk. unfold columns. by eapply sel_singleton_elem.
Qed.

Lemma setitem_scalar_sel_other (df : DataFrame) key key' c :
  key ≠ key' -> sel key' (cols (setitem_scalar df key c)) = sel key' (cols df).
Proof. intros. rewrite setitem_scalar_assign. by apply sel_assign_other. Qed.

Lemma series_sum_app (a b : list cell) :
  (forall x y z : num, nadd x (nadd y z) = nadd (nadd x y) z) ->
  (forall x : num, nadd nzero x = x) ->
  series_sum (a ++ b) = nadd (series_sum a) (series_sum b).
Proof.
  intros Hassoc Hzero. induction a as [|c a IH]; cbn [app series_sum].
  - by rewrite Hzero.
  - destruct c; try done. by rewrite IH, Hassoc.
Qed.

Lemma standardized_sel (raw df : DataFrame) key :
  _standardize_dataframe raw = Ok df -> key ∈ canonical ->
  exists s, sel key (cols df) = [(key, s)].
Proof.
  intros [Hu ->]%standardize_Ok_inv.
  destruct (standard_form_sel raw Hu) as (HD & HR & HE).
  unfold canonical. rewrite !elem_of_cons, elem_of_nil.
  intros [->|[->|[->|[]]]]; eauto.
Qed.

(** C3, as the code has it.  With an addition that is associative and has 0
    as left unit (exact integers or rationals, or wrapping [int64]), the
    Revenue total of the combined table is the sum of the two tables' Revenue
    totals, and the same holds for Expenses.  Over [float64] the two can
    differ by rounding. *)
Theorem merge_totals (rawA rawB tableA tableB combined : DataFrame) (key : string) :
  (forall x y z : num, nadd x (nadd y z) = nadd (nadd x y) z) ->
  (forall x : num, nadd nzero x = x) ->
  _standardize_dataframe rawA = Ok tableA ->
  _standardize_dataframe rawB = Ok tableB ->
  merge tableA tableB = Ok combined ->
  key ∈ ["Revenue"; "Expenses"] ->
  exists sa sb,
    column_sum tableA key = Ok sa /\
    column_sum tableB key = Ok sb /\
    column_sum combined key = Ok (nadd sa sb).
Proof.
  intros Hassoc Hzero HA HB Hm Hkey.
  assert (key ∈ canonical /\ "Company" ≠ key) as [Hc Hne].
  { revert Hkey. unfold canonical. rewrite !elem_of_cons, elem_of_nil.
    intros [->|[->|[]]]; split; try done; tauto. }
  destruct (standardized_sel _ _ key HA Hc) as [x Hx].
  destruct (standardized_sel _ _ key HB Hc) as [y Hy].
  exists (series_sum x), (series_sum y).
  unfold merge in Hm.
  eapply (concat_sel_unique key) in Hm;
    [|by rewrite setitem_scalar_sel_other..].
  unfold column_sum, getitem. rewrite Hx, Hy, Hm. cbn.
  by rewrite series_sum_app.
Qed.

Lemma NoDup_fst_inj (cs : list column) (c d : column) :
  NoDup cs.*1 -> c ∈ cs -> d ∈ cs -> c.1 = d.1 -> c = d.
Proof.
  induction cs as [|a cs IH]; [by intros _ ?%elem_of_nil|].
  rewrite fmap_cons, NoDup_cons, !elem_of_cons.
  intros [Ha Hnd] [->|Hc] [->|Hd] Heq; [done| | |by apply IH].
  - exfalso. apply Ha. rewrite Heq. by apply list_elem_of_fmap_2.
  - exfalso. apply Ha. rewrite <- Heq. by apply list_elem_of_fmap_2.
Qed.

Lemma same_labels_lookup (a b : list column) i (x : column) :
  a.*1 = b.*1 -> a !! i = Some x -> exists y, b !! i = Some y /\ y.1 = x.1.
Proof.
  intros Hab Hx.
  assert (b.*1 !! i = Some x.1) as Hb by (by rewrite <- Hab, list_lookup_fmap, Hx).
  rewrite list_lookup_fmap in Hb. destruct (b !! i) as [y|]; [|done].
  exists y. split; [done|]. by injection Hb.
Qed.

(** Every column of a concatenation is a column of the first frame, or a run
    of [NaN], followed by a column of the second frame, or a run of [NaN]. *)
Lemma concat_elem (a b c : DataFrame) (x : column) :
  concat a b = Ok c -> x ∈ cols c ->
  exists u v, x.2 = u ++ v /\
    ((x.1, u) ∈ cols a \/ (x.1 ∉ columns a) /\ u = replicate (nrows a) CNaN) /\
    ((x.1, v) ∈ cols b \/ (x.1 ∉ columns b) /\ v = replicate (nrows b) CNaN).
Proof.
  unfold concat. destruct (decide (columns a = columns b)) as [Hab|Hab].
  { intros [= <-]. cbn [cols].
    intros [i (c1 & c2 & -> & H1 & H2)%lookup_zip_with_Some]%list_elem_of_lookup.
    destruct (same_labels_lookup _ _ _ _ Hab H1) as (y & Hy & Hl).
    assert (y = c2) as -> by congruence.
    exists c1.2, c2.2. cbn [fst snd]. split; [done|]. split; left.
    - rewrite <- surjective_pairing. by eapply list_elem_of_lookup_2.
    - rewrite <- Hl, <- surjective_pairing. by eapply list_elem_of_lookup_2. }
  destruct (_ && _); [|done]. intros [= <-]. cbn [cols].
  rewrite elem_of_app, !list_elem_of_fmap.
  intros [(c1 & -> & H1)|(d & -> & [Hd Hin]%list_elem_of_filter)]; cbn [fst snd].
  - eexists _, _. split; [done|]. split.
    { left. by rewrite <- surjective_pairing. }
    destruct (list_find _ (cols b)) as [[j d]|] eqn:E.
    + apply list_find_Some in E as (Hj & Hd & _). left. cbn [snd].
      rewrite <- Hd, <- surjective_pairing. by eapply list_elem_of_lookup_2.
    + right. split; [|done]. rewrite list_find_None, Forall_forall in E.
      unfold columns. intros (d & Hd & Hin)%list_elem_of_fmap. by eapply E.
  - eexists _, _. split; [done|]. split; [by right|].
    left. by rewrite <- surjective_pairing.
Qed.

Lemma concat_elem_l (a b c : DataFrame) (x : column) :
  concat a b = Ok c -> x ∈ cols a -> exists v, (x.1, x.2 ++ v) ∈ cols c.
Proof.
  unfold concat. destruct (decide (columns a = columns b)) as [Hab|Hab].
  { intros [= <-] [i Hi]%list_elem_of_lookup. cbn [cols].
    destruct (same_labels_lookup _ _ _ _ Hab Hi) as (y & Hy & _).
    exists y.2. apply list_elem_of_lookup. exists i.
    apply lookup_zip_with_Some. by exists x, y. }
  destruct (_ && _); [|done]. intros [= <-] Hx. cbn [cols].
  eexists. apply elem_of_app. left.
  apply list_elem_of_fmap. by exists x.
Qed.

Lemma concat_elem_r (a b c : DataFrame) (y : column) :
  concat a b = Ok c -> y ∈ cols b -> exists u, (y.1, u ++ y.2) ∈ cols c.
Proof.
  unfold concat. destruct (decide (columns a = columns b)) as [Hab|Hab].
  { intros [= <-] [i Hi]%list_elem_of_lookup. cbn [cols].
    destruct (same_labels_lookup _ _ _ _ (eq_sym Hab) Hi) as (x & Hx & Hl).
    exists x.2. apply list_elem_of_lookup. exists i.
    apply lookup_zip_with_Some. exists x, y. by rewrite Hl. }
  destruct (bool_decide (NoDup (columns a)) && bool_decide (NoDup (columns b))) eqn:Hnd;
    [|done].
  apply andb_true_iff in Hnd as [_ Hnd%bool_decide_eq_true].
  intros [= <-] Hy. cbn [cols].
  destruct (decide (y.1 ∈ columns a)) as [Hin|Hin].
  - unfold columns in Hin. apply list_elem_of_fmap in Hin as (x & Hl & Hx).
    exists x.2. apply elem_of_app. left. apply list_elem_of_fmap. exists x.
    split; [|done]. rewrite Hl. f_equal. f_equal.
    destruct (list_find _ (cols b)) as [[j d]|] eqn:E.
    + apply list_find_Some in E as (Hj & Hd & _). cbn [snd]. f_equal.
      apply (NoDup_fst_inj (cols b)); [done..| |congruence].
      by eapply list_elem_of_lookup_2.
    + exfalso. rewrite list_find_None, Forall_forall in E. by eapply E.
  - eexists. apply elem_of_app. right. apply list_elem_of_fmap. exists y.
    split; [done|]. by apply list_elem_of_filter.
Qed.

Lemma setitem_scalar_elem (df : DataFrame) key c (x : column) :
  x ∈ cols (setitem_scalar df key c) ->
  x.1 ≠ key /\ x ∈ cols df \/ x = (key, replicate (nrows df) c).
Proof.
  rewrite setitem_scalar_assign.
  intros [[? ?]|[(c0 & _ & _ & ->)|[_ ->]]]%assign_elem; auto.
Qed.

Lemma setitem_scalar_keeps (df : DataFrame) key c (x : column) :
  x ∈ cols df -> x.1 ≠ key -> x ∈ cols (setitem_scalar df key c).
Proof.
  rewrite setitem_scalar_assign. intros [i Hi]%list_elem_of_lookup Hne.
  eapply list_elem_of_lookup_2. by apply assign_lookup_other.
Qed.

Lemma setitem_scalar_has_key (df : DataFrame) key c :
  (key, replicate (nrows df) c) ∈ cols (setitem_scalar df key c).
Proof.
  unfold setitem_scalar, setitem. destruct (has_column key df) eqn:Hhas; cbn [cols].
  - apply has_column_elem in Hhas. unfold columns in Hhas.
    apply list_elem_of_fmap in Hhas as (x & -> & Hx).
    apply list_elem_of_fmap. exists x. by rewrite decide_True.
  - apply elem_of_app. right. by apply list_elem_of_singleton.
Qed.

Lemma setitem_scalar_columns (df : DataFrame) key c l :
  l ∈ columns df -> l ∈ columns (setitem_scalar df key c).
Proof.
  unfold columns. intros (x & -> & Hx)%list_elem_of_fmap.
  destruct (decide (x.1 = key)) as [Hk|Hk].
  - apply list_elem_of_fmap. exists (key, replicate (nrows df) c).
    split; [done|]. apply setitem_scalar_has_key.
  - apply list_elem_of_fmap_2. by apply setitem_scalar_keeps.
Qed.

(** C4.  In the table the merge produces, every column is a column of the
    first table (or a run of missing values) followed by a column of the second
    one (or a run of missing values): the rows of the first table come first,
    the rows of both stay in order, and the index is as long as both
    together.  [Company] reads "Company A" on the first part and "Company B"
    on the second.  Every column of either input is found in the result. *)
Theorem merge_rows_and_company (tableA tableB combined : DataFrame) :
  wf tableA -> wf tableB ->
  merge tableA tableB = Ok combined ->
  nrows combined = nrows tableA + nrows tableB /\
  "Company" ∈ columns combined /\
  (forall x : column, x ∈ cols combined ->
     exists u v, x.2 = u ++ v /\ length u = nrows tableA /\ length v = nrows tableB /\
       (x.1 = "Company" ->
          u = replicate (nrows tableA) (CStr "Company A") /\
          v = replicate (nrows tableB) (CStr "Company B")) /\
       (x.1 ≠ "Company" ->
          ((x.1, u) ∈ cols tableA \/
           (x.1 ∉ columns tableA) /\ u = replicate (nrows tableA) CNaN) /\
          ((x.1, v) ∈ cols tableB \/
           (x.1 ∉ columns tableB) /\ v = replicate (nrows tableB) CNaN))) /\
  (forall l s, (l, s) ∈ cols tableA -> l ≠ "Company" ->
     exists v, (l, s ++ v) ∈ cols combined) /\
  (forall l s, (l, s) ∈ cols tableB -> l ≠ "Company" ->
     exists u, (l, u ++ s) ∈ cols combined).
Proof.
  intros HwA HwB Hm. unfold merge in Hm.
  set (A := setitem_scalar tableA "Company" (CStr "Company A")) in *.
  set (B := setitem_scalar tableB "Company" (CStr "Company B")) in *.
  assert (wf A) as HwA' by by apply wf_setitem_scalar.
  assert (wf B) as HwB' by by apply wf_setitem_scalar.
  assert (nrows A = nrows tableA) as HnA
    by (unfold A; rewrite setitem_scalar_assign; apply nrows_assign).
  assert (nrows B = nrows tableB) as HnB
    by (unfold B; rewrite setitem_scalar_assign; apply nrows_assign).
  split; [|split; [|split; [|split]]].
  - by rewrite (concat_nrows _ _ _ Hm), HnA, HnB.
  - destruct (concat_elem_l _ _ _ _ Hm (setitem_scalar_has_key tableA "Company" (CStr "Company A")))
      as [v Hv].
    unfold columns. apply list_elem_of_fmap. eexists. split; [|exact Hv]. done.
  - intros x Hx. destruct (concat_elem _ _ _ _ Hm Hx) as (u & v & Huv & Hu & Hv).
    exists u, v. split; [done|].
    assert (length u = nrows tableA) as Hlu.
    { destruct Hu as [Hu|[_ ->]]; [|by rewrite length_replicate].
      unfold wf in HwA'. eapply Forall_forall in HwA'; [|done]. by rewrite <- HnA. }
    assert (length v = nrows tableB) as Hlv.
    { destruct Hv as [Hv|[_ ->]]; [|by rewrite length_replicate].
      unfold wf in HwB'. eapply Forall_forall in HwB'; [|done]. by rewrite <- HnB. }
    split; [done|]. split; [done|]. split.
    + intros Hk. rewrite Hk in Hu, Hv. split.
      * destruct Hu as [Hu|[Hu _]].
        -- apply setitem_scalar_elem in Hu as [[? _]|[= ->]]; done.
        -- exfalso. apply Hu. unfold columns, A.
           apply list_elem_of_fmap. eexists. split; [|apply setitem_scalar_has_key]. done.
      * destruct Hv as [Hv|[Hv _]].
        -- apply setitem_scalar_elem in Hv as [[? _]|[= ->]]; done.
        -- exfalso. apply Hv. unfold columns, B.
           apply list_elem_of_fmap. eexists. split; [|apply setitem_scalar_has_key]. done.
    + intros Hk. split.
      * destruct Hu as [Hu|[Hu ->]].
        -- left. apply setitem_scalar_elem in Hu as [[_ ?]|[= ? _]]; [done|congruence].
        -- right. split; [|by rewrite HnA]. intros Hin. by apply Hu, setitem_scalar_columns.
      * destruct Hv as [Hv|[Hv ->]].
        -- left. apply setitem_scalar_elem in Hv as [[_ ?]|[= ? _]]; [done|congruence].
        -- right. split; [|by rewrite HnB]. intros Hin. by apply Hv, setitem_scalar_columns.
  - intros l s Hin Hl.
    apply (concat_elem_l _ _ _ (l, s) Hm). by apply setitem_scalar_keeps.
  - intros l s Hin Hl.
    apply (concat_elem_r _ _ _ (l, s) Hm). by apply setitem_scalar_keeps.
Qed.

End MergeFacts.

(** ** The horizontal axis *)

Section AxisFacts.
Context {num : Type} `{!Numeric num, !Pandas num}.

Local Abbreviation cell := (cell num).
Local Abbreviation DataFrame := (DataFrame num).
Local Abbreviation column := (string * list cell)%type.
Local Abbreviation sel key cs := (filter (fun c : column => c.1 = key) cs).
Local Abbreviation by_key := (fun p q : cell * nat => key_le p.1 q.1).

#[local] Instance key_le_total : Total (key_le (num := num)).
Proof. intros [] []; simpl; try tauto. lia. Qed.

#[local] Instance key_le_trans : Transitive (key_le (num := num)).
Proof. intros [] [] []; simpl; try tauto. lia. Qed.

#[local] Instance by_key_total : Total by_key.
Proof. intros p q. apply key_le_total. Qed.

Lemma zip_seq_lookup (k : list cell) c i start :
  (c, i) ∈ zip k (seq start (length k)) -> k !! (i - start) = Some c /\ start <= i.
Proof.
  revert start. induction k as [|a k IH]; intros start; cbn [length seq zip zip_with].
  - by intros ?%elem_of_nil.
  - rewrite elem_of_cons. intros [[= -> ->]|Hin].
    + rewrite Nat.sub_diag. split; [done|lia].
    + apply IH in Hin as [Hk Hle].
      replace (i - start) with (S (i - S start)) by lia. split; [done|lia].
Qed.

(** The key column, taken in the computed order, is sorted, and the order is
    a rearrangement of the row positions. *)
Lemma argsort_sorted (k : list cell) :
  Sorted key_le (take_rows (argsort k) k) /\ argsort k ≡ₚ seq 0 (length k).
Proof.
  unfold argsort, take_rows.
  set (ps := merge_sort by_key (zip k (seq 0 (length k)))).
  assert (ps ≡ₚ zip k (seq 0 (length k))) as Hperm by apply merge_sort_Permutation.
  split.
  - assert ((fun i => default CNaN (k !! i)) <$> ps.*2 = ps.*1) as ->.
    { rewrite <- list_fmap_compose. apply list_fmap_ext. intros j [c i] Hj. cbn.
      assert ((c, i) ∈ zip k (seq 0 (length k))) as Hin.
      { rewrite <- Hperm. by eapply list_elem_of_lookup_2. }
      apply zip_seq_lookup in Hin as [Hk _]. rewrite Nat.sub_0_r in Hk. by rewrite Hk. }
    apply (Sorted_fmap _ by_key key_le); [done|]. apply (Sorted_merge_sort by_key).
  - rewrite Hperm. rewrite snd_zip; [done|]. by rewrite length_seq.
Qed.

Lemma getitem_single (df : DataFrame) key s :
  sel key (cols df) = [(key, s)] -> getitem df key = Ok (Series s).
Proof. intros E. unfold getitem. by rewrite E. Qed.

(** With a single [Date] column holding at least one timestamp, the chart
    gets the rows reordered so that [Date] ascends (missing dates last), and
    [Date] is the x column. *)
Lemma choose_axis_date (df : DataFrame) dates :
  sel "Date" (cols df) = [("Date", dates)] ->
  forallb isna dates = false ->
  choose_axis df
  = Ok ({| cols := prod_map id (take_rows (argsort dates)) <$> cols df;
           nrows := nrows df |}, "Date") /\
  Sorted key_le (take_rows (argsort dates) dates) /\
  argsort dates ≡ₚ seq 0 (length dates).
Proof.
  intros Hsel Hna. split; [|apply argsort_sorted].
  unfold choose_axis, date_all_na, sort_values.
  assert (has_column "Date" df = true) as ->.
  { apply has_column_true. by rewrite Hsel. }
  rewrite (getitem_single _ _ _ Hsel). cbn. by rewrite Hna.
Qed.

(** With a single [Date] column holding no timestamp and no column labelled
    [index], the chart gets a first column [Period] holding the row positions,
    and [Period] is the x column. *)
Lemma choose_axis_period (df : DataFrame) dates :
  sel "Date" (cols df) = [("Date", dates)] ->
  forallb isna dates = true ->
  "index" ∉ columns df ->
  choose_axis df
  = Ok ({| cols := ("Period", (fun i => CNum (nofnat i)) <$> seq 0 (nrows df)) :: cols df;
           nrows := nrows df |}, "Period").
Proof.
  intros Hsel Hna Hidx.
  unfold choose_axis, date_all_na, reset_index.
  assert (has_column "Date" df = true) as ->.
  { apply has_column_true. by rewrite Hsel. }
  rewrite (getitem_single _ _ _ Hsel). cbn. rewrite Hna.
  assert (has_column "index" df = false) as Hh.
  { apply not_true_iff_false. by rewrite has_column_elem. }
  rewrite Hh. cbn. rewrite Hh. cbn. unfold rename. cbn [cols nrows].
  rewrite fmap_cons. unfold prod_map at 1, rename_label at 1. cbn [fst snd].
  rewrite lookup_singleton_eq. cbn [default id].
  match goal with
  | |- context [?F <$> cols df] => assert (F <$> cols df = cols df) as ->; [|done]
  end.
  transitivity (id <$> cols df); [|apply list_fmap_id]. apply list_fmap_ext.
  intros i [l s] Hi. unfold prod_map, rename_label. cbn. f_equal.
  rewrite lookup_singleton_ne; [done|]. intros <-. apply Hidx.
  unfold columns. apply list_elem_of_fmap. exists ("index", s).
  split; [done|]. by eapply list_elem_of_lookup_2.
Qed.

(** With a column labelled [index] in the table, the row positions go to a
    column [level_0] instead, and [Period] is the former [index] column. *)
Lemma choose_axis_index_clash (df : DataFrame) dates :
  sel "Date" (cols df) = [("Date", dates)] ->
  forallb isna dates = true ->
  "index" ∈ columns df -> "level_0" ∉ columns df ->
  exists df', choose_axis df = Ok (df', "Period") /\
    cols df' = ("level_0", (fun i => CNum (nofnat i)) <$> seq 0 (nrows df))
               :: (prod_map (fun l => if decide (l = "index") then "Period" else l) id
                     <$> cols df).
Proof.
  intros Hsel Hna Hidx Hlvl.
  unfold choose_axis, date_all_na, reset_index.
  assert (has_column "Date" df = true) as ->.
  { apply has_column_true. by rewrite Hsel. }
  rewrite (getitem_single _ _ _ Hsel). cbn. rewrite Hna.
  apply has_column_elem in Hidx as ->. cbn.
  assert (has_column "level_0" df = false) as ->.
  { apply not_true_iff_false. by rewrite has_column_elem. }
  cbn. eexists. split; [done|]. unfold rename. cbn. f_equal.
  apply list_fmap_ext. intros i [l s] Hi. unfold prod_map, rename_label. cbn. f_equal.
  destruct (decide (l = "index")) as [->|Hne].
  - by rewrite lookup_singleton_eq.
  - by rewrite lookup_singleton_ne.
Qed.

End AxisFacts.

(** ** The page script *)

Section ScriptFacts.
Context {num : Type} `{!Numeric num, !Pandas num}.

Local Abbreviation DataFrame := (DataFrame num).

Lemma load_Ok_inv file1 file2 (combined : DataFrame) :
  load file1 file2 = Ok combined ->
  exists df1 df2 table1 table2,
    read_csv file1 = Ok df1 /\ read_csv file2 = Ok df2 /\
    _standardize_dataframe df1 = Ok table1 /\
    _standardize_dataframe df2 = Ok table2 /\
    merge table1 table2 = Ok combined.
Proof.
  unfold load.
  destruct (read_csv file1) as [df1|]; [|done].
  destruct (read_csv file2) as [df2|]; [|done]. cbn [mbind result_bind].
  destruct (_standardize_dataframe df1) as [t1|] eqn:H1; [|done].
  destruct (_standardize_dataframe df2) as [t2|] eqn:H2; [|done]. cbn [mbind result_bind].
  intros Hm. exists df1, df2, t1, t2. repeat split; done.
Qed.

(** C9.  When one of the two uploads does not parse, the run consists of the
    page heading and one sidebar error that carries the text of the parse
    error: no total, chart or summary is drawn.  Whenever a run draws any part
    of the dashboard, both uploads were present and parsed, both tables were
    standardized and the merge succeeded. *)
Theorem script_load_failure :
  (forall file1 file2 selectbox,
      is_ok (read_csv file1) && is_ok (read_csv file2) = false ->
      exists e, (read_csv file1 = Raise e \/ read_csv file2 = Raise e) /\
        script (Some file1) (Some file2) selectbox
        = [st_title "Company performance dashboard";
           st_write "Upload your company performance data to see the insights";
           st_sidebar_header "Upload your data file";
           st_sidebar_error ("Error loading files: " +:+ str_exn e)]) /\
  (forall uploaded_file1 uploaded_file2 selectbox,
      Exists is_dashboard (script uploaded_file1 uploaded_file2 selectbox) ->
      exists file1 file2 df1 df2 table1 table2 (combined : DataFrame),
        uploaded_file1 = Some file1 /\ uploaded_file2 = Some file2 /\
        read_csv file1 = Ok df1 /\ read_csv file2 = Ok df2 /\
        _standardize_dataframe df1 = Ok table1 /\
        _standardize_dataframe df2 = Ok table2 /\
        merge table1 table2 = Ok combined).
Proof.
  split.
  - intros file1 file2 selectbox Hfail. unfold script, load.
    destruct (read_csv file1) as [df1|e1]; [|exists e1; split; [by left|done]].
    destruct (read_csv file2) as [df2|e2]; [done|]. exists e2. split; [by right|done].
  - intros up1 up2 selectbox. unfold script.
    rewrite !Exists_cons. intros [[]|[[]|[[]|Hd]]].
    destruct up1 as [file1|], up2 as [file2|];
      try (apply Exists_cons in Hd as [[]|[]%Exists_nil]).
    destruct (load file1 file2) as [combined|e] eqn:Hload.
    + apply load_Ok_inv in Hload as (df1 & df2 & t1 & t2 & ?).
      exists file1, file2, df1, df2, t1, t2, combined. tauto.
    + apply Exists_cons in Hd as [[]|[]%Exists_nil].
Qed.

End ScriptFacts.

(** * Concrete runs *)

Import Demo.

Lemma monthly_standardized : _standardize_dataframe monthly = Ok monthly_std.
Proof. vm_compute. reflexivity. Defined.

Lemma dated_standardized : _standardize_dataframe dated = Ok dated_std.
Proof. vm_compute. reflexivity. Defined.

Lemma both_merged : merge monthly_std dated_std = Ok both.
Proof. vm_compute. reflexivity. Defined.

Lemma monthly_unambiguous : unambiguous monthly.
Proof. apply (bool_decide_unpack _). vm_compute. exact I. Defined.

(** The uploads parse to the two raw tables. *)
Example uploads_parse :
  read_csv sales_csv = Ok monthly /\ read_csv costs_csv = Ok dated.
Proof. split; vm_compute; reflexivity. Qed.

(** Scenario 2 of the specification: a single [Cost] column. *)
Example scenario_cost_only :
  _standardize_dataframe (frame [("Cost", [CNum 50%Z; CNum 75%Z])] 2)
  = Ok (frame [("Expenses", [CNum 50%Z; CNum 75%Z]);
               ("Date", [CNaT; CNaT]);
               ("Revenue", [CNum 0%Z; CNum 0%Z])] 2).
Proof. vm_compute. reflexivity. Qed.

(** Scenario 3 of the specification: the text "abc" under [Revenue]. *)
Example scenario_unparseable_revenue :
  _standardize_dataframe
    (frame [("Date", [CStr "2024-01-01"]); ("Revenue", [CStr "abc"])] 1)
  = Ok (frame [("Date", [CDate 1704067200000000000]);
               ("Revenue", [CNum 0%Z]);
               ("Expenses", [CNum 0%Z])] 1).
Proof. vm_compute. reflexivity. Qed.

(** Witness of C1 on the monthly table. *)
Lemma standardize_canonical_columns_witness :
  _standardize_dataframe monthly = Ok monthly_std /\
  length (cols monthly_std) = 3 + length (passthrough monthly).
Proof.
  split; [exact monthly_standardized|].
  exact (proj2 (proj2 (standardize_canonical_columns monthly monthly_std
                         monthly_standardized))).
Defined.

(** Witness of C3: Revenue and Expenses totals of the merged demo tables. *)
Lemma merge_totals_witness :
  (forall x y z : Z, nadd x (nadd y z) = nadd (nadd x y) z) /\
  (forall x : Z, nadd nzero x = x) /\
  "Revenue" ∈ ["Revenue"; "Expenses"] /\
  exists sa sb,
    column_sum monthly_std "Revenue" = Ok sa /\
    column_sum dated_std "Revenue" = Ok sb /\
    column_sum both "Revenue" = Ok (nadd sa sb).
Proof.
  assert (forall x y z : Z, nadd x (nadd y z) = nadd (nadd x y) z) as Hassoc
    by (intros; apply Z.add_assoc).
  assert (forall x : Z, nadd nzero x = x) as Hzero by (intros; apply Z.add_0_l).
  assert ("Revenue" ∈ ["Revenue"; "Expenses"]) as Hkey by (apply elem_of_cons; by left).
  split; [exact Hassoc|]. split; [exact Hzero|]. split; [exact Hkey|].
  exact (merge_totals monthly dated monthly_std dated_std both "Revenue"
           Hassoc Hzero monthly_standardized dated_standardized both_merged Hkey).
Defined.

Lemma monthly_std_wf : wf monthly_std.
Proof. repeat constructor. Defined.

Lemma dated_std_wf : wf dated_std.
Proof. repeat constructor. Defined.

(** Witness of C4: the merged demo table has five rows. *)
Lemma merge_rows_and_company_witness :
  wf monthly_std /\ wf dated_std /\ merge monthly_std dated_std = Ok both /\
  nrows both = nrows monthly_std + nrows dated_std.
Proof.
  split; [exact monthly_std_wf|]. split; [exact dated_std_wf|].
  split; [exact both_merged|].
  exact (proj1 (merge_rows_and_company monthly_std dated_std both
                  monthly_std_wf dated_std_wf both_merged)).
Defined.

(** Scenario 4 of the specification: the [Company] column of a 2-row and a
    3-row table. *)
Example scenario_company_labels :
  getitem both "Company"
  = Ok (Series [CStr "Company A"; CStr "Company A";
                CStr "Company B"; CStr "Company B"; CStr "Company B"]).
Proof. vm_compute. reflexivity. Qed.

(** Witness of C5. *)
Lemma standardize_idempotent_witness :
  _standardize_dataframe monthly = Ok monthly_std /\
  _standardize_dataframe monthly_std = Ok monthly_std.
Proof.
  split; [exact monthly_standardized|].
  exact (standardize_idempotent monthly monthly_std monthly_standardized).
Defined.

(** C6 as stated fails: a table with a [Date] and a [Month] column makes the
    standardizer raise. *)
Lemma standardize_raises_on_two_date_columns :
  _standardize_dataframe two_date_columns
  = Raise (ValueError "cannot assemble with duplicate keys").
Proof. vm_compute. reflexivity. Qed.

(** Witness of the amended C6. *)
Lemma standardize_total_on_unambiguous_witness :
  unambiguous monthly /\
  exists out, _standardize_dataframe monthly = Ok out /\
    out = standard_form monthly /\
    nrows out = nrows monthly /\
    (forall key, key ∈ canonical -> key ∈ columns out).
Proof.
  split; [exact monthly_unambiguous|].
  exact (standardize_total_on_unambiguous monthly monthly_unambiguous).
Defined.

(** C7 as stated fails: with a [Revenue] and a [Sales] column no table is
    returned, so none that holds the cells of the later column. *)
Lemma standardize_no_last_column_wins :
  _standardize_dataframe two_revenue_columns
    = Raise (TypeError "arg must be a list, tuple, 1-d array, or Series") /\
  ¬ exists out, _standardize_dataframe two_revenue_columns = Ok out /\
                getitem out "Revenue" = Ok (Series [CNum 2%Z]).
Proof.
  assert (_standardize_dataframe two_revenue_columns
          = Raise (TypeError "arg must be a list, tuple, 1-d array, or Series")) as H
    by (vm_compute; reflexivity).
  split; [exact H|]. intros (out & Hout & _). rewrite H in Hout. discriminate.
Qed.

(** Witness of the amended C7. *)
Lemma standardize_duplicate_class_raises_witness :
  "Revenue" ∈ canonical /\ 2 <= occurrences "Revenue" two_revenue_columns /\
  exists e, _standardize_dataframe two_revenue_columns = Raise e.
Proof.
  assert ("Revenue" ∈ canonical) as Hk by (apply elem_of_cons; right; apply elem_of_cons; by left).
  assert (2 <= occurrences "Revenue" two_revenue_columns) as Ho by (vm_compute; lia).
  split; [exact Hk|]. split; [exact Ho|].
  exact (proj2 (proj2 (proj2
           (standardize_duplicate_class_raises two_revenue_columns "Revenue" Hk Ho)))).
Defined.

(** C8 fails on uploads that carry a column labelled [index] and no dates:
    the chart's [Period] column is that column (7, 9, 3), and the row
    positions 0, 1, 2 sit in a column [level_0] that the chart does not use. *)
Lemma axis_period_is_not_row_index :
  exists combined chart,
    load indexed_a_csv indexed_b_csv = Ok combined /\
    choose_axis combined = Ok (chart, "Period") /\
    getitem chart "Period" = Ok (Series [CNum 7%Z; CNum 9%Z; CNum 3%Z]) /\
    getitem chart "level_0" = Ok (Series [CNum 0%Z; CNum 1%Z; CNum 2%Z]).
Proof.
  eexists _, _. split; [vm_compute; reflexivity|].
  split; [vm_compute; reflexivity|]. split; vm_compute; reflexivity.
Qed.

(** Witness of C9: an empty first upload. *)
Lemma script_load_failure_witness :
  is_ok (read_csv EmptyString) && is_ok (read_csv costs_csv) = false /\
  exists e, (read_csv EmptyString = Raise e \/ read_csv costs_csv = Raise e) /\
    script (Some EmptyString) (Some costs_csv) first_option
    = [st_title "Company performance dashboard";
       st_write "Upload your company performance data to see the insights";
       st_sidebar_header "Upload your data file";
       st_sidebar_error ("Error loading files: " +:+ str_exn e)].
Proof.
  split; [reflexivity|].
  exact (proj1 script_load_failure EmptyString costs_csv first_option eq_refl).
Defined.

(** Witness of C10. *)
Lemma standardize_preserves_rows_witness :
  _standardize_dataframe monthly = Ok monthly_std /\
  nrows monthly_std = nrows monthly.
Proof.
  split; [exact monthly_standardized|].
  exact (proj1 (standardize_preserves_rows monthly monthly_std monthly_standardized)).
Defined.

(** * Further properties *)

(** ** Classification *)

Section ClassifyMore.

Lemma starts_with_app p q s :
  starts_with (p +:+ q) s = true -> starts_with p s = true.
Proof.
  revert s. induction p as [|a p IH]; intros s; [done|].
  destruct s as [|b s]; simpl; [done|].
  destruct (Ascii.eqb a b); [apply IH|done].
Qed.

(** A text that contains a needle contains every prefix of the needle. *)
Lemma contains_app p q s :
  contains (p +:+ q) s = true -> contains p s = true.
Proof.
  induction s as [|b s IH]; cbn [contains].
  - rewrite !orb_false_r. apply starts_with_app.
  - rewrite !orb_true_iff. intros [H|H]; [left; by eapply starts_with_app|right; by apply IH].
Qed.

(** X4.  The test for "sales" on line 26 never decides: a name that contains
    "sales" contains "sale", so the classifier without that test gives the
    same class to every column. *)
Theorem sales_test_redundant (col : string) :
  classify col = classify_no_sales col.
Proof.
  unfold classify, classify_no_sales.
  destruct (contains "sales" (lower (strip col))) eqn:E.
  - apply (contains_app "sale" "s") in E. rewrite E.
    by rewrite !orb_true_r.
  - by rewrite orb_false_r.
Qed.

Lemma first_match_canonical s c :
  first_match rules s = Some c -> c ∈ canonical.
Proof.
  unfold rules. cbn [first_match].
  repeat match goal with
         | |- context [if ?b then _ else _] => destruct b
         end; intros [= <-]; unfold canonical; rewrite !elem_of_cons; tauto.
Qed.

Lemma first_match_none_keywords s :
  first_match rules s = None <-> Forall (fun kw => contains kw s = false) keywords.
Proof.
  unfold rules, keywords. cbn [first_match existsb]. rewrite !Forall_cons, Forall_nil.
  repeat match goal with
         | |- context [contains ?k s] => destruct (contains k s); cbn [orb]
         end; intuition congruence.
Qed.

Lemma canonical_has_keyword l :
  l ∈ canonical -> first_match rules (lower (strip l)) = Some l.
Proof.
  unfold canonical. rewrite !elem_of_cons, elem_of_nil.
  intros [->|[->|[->|[]]]]; reflexivity.
Qed.

Lemma classify_canonical_iff col c :
  c ∈ canonical ->
  classify col = c <-> first_match rules (lower (strip col)) = Some c.
Proof.
  intros Hc. rewrite classify_unfold. unfold classify_spec.
  destruct (first_match rules (lower (strip col))) as [d|] eqn:E; cbn.
  - split; congruence.
  - split; [|done]. intros <-.
    pose proof (canonical_has_keyword _ Hc) as H. rewrite strip_idem in H. congruence.
Qed.

(** X3.  Two labels that agree up to surrounding blanks and letter case are
    classified alike: either both get the same canonical name or both are
    passed through. *)
Theorem classify_ignores_case_and_blanks (a b : string) :
  lower (strip a) = lower (strip b) ->
  (classify a ∈ canonical <-> classify b ∈ canonical) /\
  (classify a ∈ canonical -> classify a = classify b).
Proof.
  intros Hab.
  assert (forall x y, lower (strip x) = lower (strip y) ->
            classify x ∈ canonical -> classify y = classify x) as Hone.
  { intros x y Hxy Hx. apply (classify_canonical_iff _ _ Hx).
    rewrite <- Hxy. by apply classify_canonical_iff. }
  split; [split|].
  - intros Ha. by rewrite (Hone a b).
  - intros Hb. by rewrite (Hone b a).
  - intros Ha. by rewrite (Hone a b).
Qed.

End ClassifyMore.

(** ** The standardizer *)

Section FrameMore.
Context {num : Type} `{!Numeric num, !Pandas num}.

Local Abbreviation cell := (cell num).
Local Abbreviation DataFrame := (DataFrame num).
Local Abbreviation column := (string * list cell)%type.
Local Abbreviation sel key cs := (filter (fun c : column => c.1 = key) cs).

Lemma columns_assign key f dflt (df : DataFrame) :
  columns (assign key f dflt df)
  = columns df ++ (if has_column key df then [] else [key]).
Proof.
  unfold assign, columns. destruct (has_column key df); cbn [cols].
  - rewrite app_nil_r, <- list_fmap_compose. apply list_fmap_ext.
    intros i c _. cbn. by destruct (decide (c.1 = key)).
  - by rewrite fmap_app.
Qed.

Lemma columns_rename_classify (df : DataFrame) :
  columns (rename (build_col_map (columns df)) df) = classify <$> columns df.
Proof.
  unfold columns at 1. rewrite cols_rename_classify. unfold columns.
  rewrite <- !list_fmap_compose. apply list_fmap_ext. by intros i [l s] _.
Qed.

Lemma has_column_assign_other key key' f dflt (df : DataFrame) :
  key ≠ key' -> has_column key' (assign key f dflt df) = has_column key' df.
Proof.
  intros Hne. apply eq_true_iff_eq. rewrite !has_column_elem, columns_assign.
  rewrite elem_of_app. destruct (has_column key df).
  - rewrite elem_of_nil. tauto.
  - rewrite list_elem_of_singleton. split; [intros [?|?]; [done|congruence]|tauto].
Qed.

Lemma columns_standard_form (df : DataFrame) :
  columns (standard_form df)
  = (classify <$> columns df)
    ++ filter (fun key => key ∉ classify <$> columns df) canonical.
Proof.
  unfold standard_form.
  rewrite !columns_assign, !has_column_assign_other by done.
  assert (forall key, has_column key (rename (build_col_map (columns df)) df)
                      = bool_decide (key ∈ classify <$> columns df)) as Hr.
  { intros key. unfold has_column. by rewrite columns_rename_classify. }
  rewrite columns_rename_classify, <- !app_assoc. f_equal.
  rewrite !Hr. unfold canonical. rewrite !filter_cons, filter_nil.
  repeat case_bool_decide; repeat case_decide; try done; tauto.
Qed.

(** X2.  The standardizer keeps the input's columns in their order and puts
    the canonical columns it has to create behind them, in the order Date,
    Revenue, Expenses. *)
Theorem standardize_column_order (df out : DataFrame) :
  _standardize_dataframe df = Ok out ->
  columns out
  = (classify <$> columns df)
    ++ filter (fun key => key ∉ classify <$> columns df) canonical.
Proof. intros [_ ->]%standardize_Ok_inv. apply columns_standard_form. Qed.

Lemma numeric_conv_frame (cs : list (list cell)) :
  numeric_conv (Frame cs)
  = Raise (TypeError "arg must be a list, tuple, 1-d array, or Series").
Proof. done. Qed.

(** X1.  The standardizer raises two errors only, and the error tells which
    class is claimed twice: the [ValueError] of [to_datetime] when two columns
    are dates, and otherwise the [TypeError] of [to_numeric] when two columns
    are revenues or two are expenses. *)
Theorem standardize_raise_kind (df : DataFrame) (e : exn) :
  _standardize_dataframe df = Raise e ->
  e = ValueError "cannot assemble with duplicate keys" /\ 2 <= occurrences "Date" df \/
  e = TypeError "arg must be a list, tuple, 1-d array, or Series" /\
    occurrences "Date" df <= 1 /\
    (2 <= occurrences "Revenue" df \/ 2 <= occurrences "Expenses" df).
Proof.
  rewrite standardize_steps. set (r := rename _ df).
  assert (forall key, length (sel key (cols r)) = occurrences key df) as Hr
    by (intros; by rewrite occurrences_sel).
  destruct (decide (occurrences "Date" df <= 1)) as [HD|HD].
  2:{ erewrite coerce_step_raise; [|intros cs; reflexivity|rewrite Hr; lia].
      intros [= <-]. left. split; [done|lia]. }
  rewrite (coerce_step_assign _ _ datetime_column) by (try done; by rewrite Hr).
  cbn [mbind result_bind].
  destruct (decide (occurrences "Revenue" df <= 1)) as [HR|HR].
  2:{ erewrite coerce_step_raise;
        [|apply numeric_conv_frame|rewrite sel_assign_other, Hr by done; lia].
      intros [= <-]. right. repeat split; [done|]. left. lia. }
  rewrite (coerce_step_assign _ _ numeric_column); try done.
  2:{ by rewrite sel_assign_other, Hr. }
  cbn [mbind result_bind].
  destruct (decide (occurrences "Expenses" df <= 1)) as [HE|HE].
  { rewrite (coerce_step_assign _ _ numeric_column); try done.
    by rewrite !sel_assign_other, Hr. }
  erewrite coerce_step_raise;
    [|apply numeric_conv_frame|rewrite !sel_assign_other, Hr by done; lia].
  intros [= <-]. right. repeat split; [done|]. right. lia.
Qed.

Lemma is_ok_standardize (df : DataFrame) :
  is_ok (_standardize_dataframe df) = bool_decide (unambiguous df).
Proof.
  destruct (decide (unambiguous df)) as [Hu|Hu].
  - by rewrite standardize_unambiguous, bool_decide_true.
  - destruct (standardize_ambiguous df Hu) as [e ->]. by rewrite bool_decide_false.
Qed.

(** X13.  Whether the standardizer raises is decided by the column labels
    alone: two tables with the same labels both pass or both fail, whatever
    their cells and their number of rows. *)
Theorem standardize_outcome_by_labels (df df' : DataFrame) :
  columns df = columns df' ->
  is_ok (_standardize_dataframe df) = is_ok (_standardize_dataframe df').
Proof.
  intros Hc. rewrite !is_ok_standardize. apply bool_decide_ext.
  unfold unambiguous, occurrences. by rewrite Hc.
Qed.

(** X5.  In a table the standardizer returns, a label other than the three
    canonical names has no surrounding blanks and mentions none of the
    classifier's keywords, in any letter case. *)
Theorem standardized_labels_keyword_free (df out : DataFrame) (l : string) :
  _standardize_dataframe df = Ok out ->
  l ∈ columns out -> l ∉ canonical ->
  strip l = l /\ Forall (fun kw => contains kw (lower l) = false) keywords.
Proof.
  intros [_ ->]%standardize_Ok_inv Hl Hcan.
  unfold columns in Hl. apply list_elem_of_fmap in Hl as (c & -> & Hc).
  apply standard_form_inv in Hc as [Hfix _].
  destruct (classify_cases c.1) as [H|[Hs Hnone]]; [by rewrite Hfix in H|].
  rewrite Hfix in Hs. split; [done|].
  apply first_match_none_keywords. by rewrite Hs.
Qed.

Lemma series_sum_numeric_column (s : list cell) :
  (forall x : num, nadd nzero x = x) ->
  series_sum (numeric_column s) = series_sum (to_numeric_cell <$> s).
Proof.
  intros Hzero. unfold numeric_column, fillna.
  induction s as [|c s IH]; [done|]. rewrite !fmap_cons.
  destruct (to_numeric_cell c) eqn:E; cbn [fillna_cell series_sum]; rewrite ?IH; try done.
Qed.

(** X15.  A cell of the Revenue (or Expenses) column that does not parse as
    a number adds nothing to the column's total: with 0 a left unit of the
    addition, the total of the standardized column is the sum of the cells
    that parse. *)
Theorem total_skips_unparseable (df out : DataFrame) (key l : string) (s : list cell) :
  (forall x : num, nadd nzero x = x) ->
  _standardize_dataframe df = Ok out ->
  key ∈ ["Revenue"; "Expenses"] ->
  (l, s) ∈ cols df -> classify l = key ->
  column_sum out key = Ok (series_sum (to_numeric_cell <$> s)).
Proof.
  intros Hzero [Hu ->]%standardize_Ok_inv Hkey Hin Hl.
  destruct (standard_form_sel df Hu) as (_ & HR & HE).
  assert (forall k, k ∈ canonical -> occurrences k df <= 1) as Ho.
  { intros k Hk. unfold unambiguous in Hu. by eapply Forall_forall in Hu. }
  unfold column_sum, getitem.
  revert Hkey. rewrite !elem_of_cons, elem_of_nil. intros [->|[->|[]]].
  - rewrite HR. erewrite renamed_sel_present; [| |done..].
    + cbn [mbind result_bind snd]. by rewrite series_sum_numeric_column.
    + apply Ho. unfold canonical. rewrite !elem_of_cons. tauto.
  - rewrite HE. erewrite renamed_sel_present; [| |done..].
    + cbn [mbind result_bind snd]. by rewrite series_sum_numeric_column.
    + apply Ho. unfold canonical. rewrite !elem_of_cons. tauto.
Qed.

End FrameMore.

(** ** Loading and merging *)

Section LoadMore.
Context {num : Type} `{!Numeric num, !Pandas num}.

Local Abbreviation cell := (cell num).
Local Abbreviation DataFrame := (DataFrame num).
Local Abbreviation column := (string * list cell)%type.
Local Abbreviation sel key cs := (filter (fun c : column => c.1 = key) cs).

Lemma wf_elem (df : DataFrame) (c : column) : wf df -> c ∈ cols df -> length c.2 = nrows df.
Proof. unfold wf. rewrite Forall_forall. auto. Qed.

Lemma wf_concat (a b c : DataFrame) : wf a -> wf b -> concat a b = Ok c -> wf c.
Proof.
  intros Ha Hb Hc. unfold wf. apply Forall_forall. intros x Hx.
  destruct (concat_elem _ _ _ _ Hc Hx) as (u & v & -> & Hu & Hv).
  rewrite (concat_nrows _ _ _ Hc), length_app. f_equal.
  - destruct Hu as [Hu|[_ ->]]; [apply (wf_elem _ _ Ha Hu)|apply length_replicate].
  - destruct Hv as [Hv|[_ ->]]; [apply (wf_elem _ _ Hb Hv)|apply length_replicate].
Qed.

Lemma columns_concat (a b c : DataFrame) l :
  concat a b = Ok c -> l ∈ columns c -> l ∈ columns a \/ l ∈ columns b.
Proof.
  unfold columns. intros Hc (x & -> & Hx)%list_elem_of_fmap.
  destruct (concat_elem _ _ _ _ Hc Hx) as (u & v & _ & Hu & Hv).
  destruct Hu as [Hu|[Hu ->]]; [left; by apply (list_elem_of_fmap_2 fst) in Hu|].
  destruct Hv as [Hv|[Hv ->]]; [right; by apply (list_elem_of_fmap_2 fst) in Hv|].
  exfalso. revert Hx. unfold concat in Hc.
  destruct (decide (columns a = columns b)) as [Hab|Hab].
  { injection Hc as <-. cbn [cols].
    intros [i (c1 & c2 & -> & H1 & _)%lookup_zip_with_Some]%list_elem_of_lookup.
    apply Hu. unfold columns. apply list_elem_of_fmap. exists c1.
    split; [done|]. by eapply list_elem_of_lookup_2. }
  destruct (_ && _); [|done]. injection Hc as <-. cbn [cols].
  rewrite elem_of_app, !list_elem_of_fmap.
  intros [(c1 & -> & H1)|(d & -> & [_ Hin]%list_elem_of_filter)].
  - apply Hu. unfold columns. by apply (list_elem_of_fmap_2 fst) in H1.
  - apply Hv. unfold columns. by apply (list_elem_of_fmap_2 fst) in Hin.
Qed.

Lemma columns_setitem_scalar (df : DataFrame) key c :
  columns (setitem_scalar df key c)
  = columns df ++ (if has_column key df then [] else [key]).
Proof. rewrite setitem_scalar_assign. apply columns_assign. Qed.

(** A loaded table has one column for each canonical name. *)
Lemma loaded_sel file1 file2 (combined : DataFrame) key :
  load file1 file2 = Ok combined -> key ∈ canonical ->
  exists s, sel key (cols combined) = [(key, s)].
Proof.
  intros (df1 & df2 & t1 & t2 & _ & _ & H1 & H2 & Hm)%load_Ok_inv Hk.
  destruct (standardized_sel _ _ key H1 Hk) as [x Hx].
  destruct (standardized_sel _ _ key H2 Hk) as [y Hy].
  assert ("Company" ≠ key) as Hne.
  { intros <-. revert Hk. unfold canonical. rewrite !elem_of_cons, elem_of_nil.
    intros [|[|[|[]]]]; done. }
  exists (x ++ y). unfold merge in Hm.
  eapply concat_sel_unique; [exact Hm|by rewrite setitem_scalar_sel_other..].
Qed.

Lemma load_wf file1 file2 (df1 df2 combined : DataFrame) :
  read_csv file1 = Ok df1 -> read_csv file2 = Ok df2 ->
  wf df1 -> wf df2 -> load file1 file2 = Ok combined ->
  nrows combined = nrows df1 + nrows df2 /\ wf combined.
Proof.
  intros R1 R2 W1 W2 (d1 & d2 & t1 & t2 & R1' & R2' & H1 & H2 & Hm)%load_Ok_inv.
  assert (d1 = df1) as -> by congruence. assert (d2 = df2) as -> by congruence.
  apply standardize_Ok_inv in H1 as [_ ->]. apply standardize_Ok_inv in H2 as [_ ->].
  unfold merge in Hm. split.
  - rewrite (concat_nrows _ _ _ Hm), !setitem_scalar_assign, !nrows_assign.
    by rewrite !nrows_standard_form.
  - eapply wf_concat; [| |exact Hm]; by apply wf_setitem_scalar, wf_standard_form.
Qed.

Lemma length_argsort (k : list cell) : length (argsort k) = length k.
Proof.
  unfold argsort. rewrite length_fmap.
  rewrite (Permutation_length (merge_sort_Permutation _ _)).
  rewrite length_zip_with_l_eq; [done|]. by rewrite length_seq.
Qed.

Lemma choose_axis_wf (df chart : DataFrame) x :
  wf df -> choose_axis df = Ok (chart, x) ->
  nrows chart = nrows df /\ wf chart.
Proof.
  intros Hwf. unfold choose_axis.
  destruct (if negb (has_column "Date" df) then _ else _) as [[|]|e]; [| |done];
    cbn [mbind result_bind].
  - unfold reset_index.
    destruct (has_column (if has_column "index" df then "level_0" else "index") df);
      [done|]. cbn [mbind result_bind]. intros [= <- _]. split; [done|].
    apply wf_rename. unfold wf. cbn [cols nrows]. apply Forall_cons. split; [|done].
    cbn. by rewrite length_fmap, length_seq.
  - unfold sort_values, getitem.
    destruct (sel "Date" (cols df)) as [|c [|c' cs]] eqn:E; [done| |done].
    cbn [mbind result_bind]. intros [= <- _]. split; [done|].
    assert (c ∈ sel "Date" (cols df)) as [_ Hc]%sel_elem by (rewrite E; left).
    unfold wf. cbn [cols nrows]. apply Forall_fmap, Forall_forall. intros [l s] Hs.
    cbn. unfold take_rows. rewrite length_fmap, length_argsort.
    by apply (wf_elem df c).
Qed.

(** X11.  When the two parsed tables are well formed, the combined table has
    as many rows as both together and every one of its columns has that many
    cells; the frame handed to the chart keeps that number of rows and is well
    formed too, whichever axis is chosen. *)
Theorem load_row_count file1 file2 (df1 df2 combined : DataFrame) :
  read_csv file1 = Ok df1 -> read_csv file2 = Ok df2 ->
  wf df1 -> wf df2 -> load file1 file2 = Ok combined ->
  nrows combined = nrows df1 + nrows df2 /\ wf combined /\
  forall chart x, choose_axis combined = Ok (chart, x) ->
    nrows chart = nrows df1 + nrows df2 /\ wf chart.
Proof.
  intros R1 R2 W1 W2 Hl.
  destruct (load_wf _ _ _ _ _ R1 R2 W1 W2 Hl) as [Hn Hw].
  split; [done|]. split; [done|]. intros chart x Hc.
  destruct (choose_axis_wf _ _ _ Hw Hc) as [Hn' Hw']. split; [congruence|done].
Qed.

Lemma NoDup_occurrences (l : list string) key :
  NoDup l -> length (filter (fun x => x = key) l) <= 1.
Proof.
  induction 1 as [|x l Hx Hnd IH]; [cbn; lia|].
  rewrite filter_cons. destruct (decide (x = key)) as [->|]; [|done].
  cbn. assert (filter (fun x => x = key) l = []) as ->; [|cbn; lia].
  destruct (filter _ l) as [|y ys] eqn:E; [done|]. exfalso.
  assert (y ∈ filter (fun x => x = key) l) as [-> Hy]%list_elem_of_filter
    by (rewrite E; left).
  done.
Qed.

Lemma NoDup_columns_standard_form (df : DataFrame) :
  NoDup (classify <$> columns df) -> NoDup (columns (standard_form df)).
Proof.
  intros Hnd. rewrite columns_standard_form. apply NoDup_app.
  split; [done|]. split.
  - intros x Hx [Hnot _]%list_elem_of_filter. done.
  - apply NoDup_filter. unfold canonical.
    repeat (apply NoDup_cons; split; [rewrite ?not_elem_of_cons; repeat split; try done; apply not_elem_of_nil|]).
    apply NoDup_nil_2.
Qed.

Lemma NoDup_columns_setitem_scalar (df : DataFrame) key c :
  NoDup (columns df) -> NoDup (columns (setitem_scalar df key c)).
Proof.
  intros Hnd. rewrite columns_setitem_scalar.
  destruct (has_column key df) eqn:Hhas; [by rewrite app_nil_r|].
  apply NoDup_app. split; [done|]. split; [|apply NoDup_singleton].
  intros x Hx ->%list_elem_of_singleton.
  apply not_true_iff_false in Hhas. by apply Hhas, has_column_elem.
Qed.

(** X12.  The load succeeds whenever both files parse and, in each table, no
    two columns come out of the classifier with the same name. *)
Theorem load_succeeds file1 file2 (df1 df2 : DataFrame) :
  read_csv file1 = Ok df1 -> read_csv file2 = Ok df2 ->
  NoDup (classify <$> columns df1) -> NoDup (classify <$> columns df2) ->
  exists combined, load file1 file2 = Ok combined.
Proof.
  intros R1 R2 N1 N2. unfold load. rewrite R1, R2. cbn [mbind result_bind].
  assert (forall df : DataFrame, NoDup (classify <$> columns df) -> unambiguous df) as Hu.
  { intros df Hnd. unfold unambiguous. apply Forall_forall. intros key _.
    by apply NoDup_occurrences. }
  rewrite !standardize_unambiguous by auto. cbn [mbind result_bind].
  unfold merge, concat. destruct (decide _); [by eexists|].
  rewrite !bool_decide_true; [by eexists|..];
    by apply NoDup_columns_setitem_scalar, NoDup_columns_standard_form.
Qed.

End LoadMore.

(** ** The axis and the page *)

Section PageMore.
Context {num : Type} `{!Numeric num, !Pandas num}.

Local Abbreviation cell := (cell num).
Local Abbreviation DataFrame := (DataFrame num).
Local Abbreviation column := (string * list cell)%type.
Local Abbreviation sel key cs := (filter (fun c : column => c.1 = key) cs).

Lemma getitem_series_inv (df : DataFrame) key s :
  getitem df key = Ok (Series s) -> sel key (cols df) = [(key, s)].
Proof.
  unfold getitem. destruct (sel key (cols df)) as [|c [|c' cs]] eqn:E; try done.
  intros [= <-].
  assert (c ∈ sel key (cols df)) as [<- _]%sel_elem by (rewrite E; left).
  by rewrite <- surjective_pairing.
Qed.

Lemma take_rows_all (s : list cell) :
  take_rows (seq 0 (length s)) s = s.
Proof.
  unfold take_rows. apply list_eq. intros i. rewrite list_lookup_fmap.
  destruct (decide (i < length s)) as [Hi|Hi].
  - rewrite lookup_seq_lt by done. cbn.
    destruct (lookup_lt_is_Some_2 s i Hi) as [x Hx]. by rewrite Hx.
  - rewrite lookup_seq_ge by lia. cbn. symmetry. apply lookup_ge_None. lia.
Qed.

Lemma take_rows_Permutation (order : list nat) (s : list cell) :
  order ≡ₚ seq 0 (length s) -> take_rows order s ≡ₚ s.
Proof.
  intros Hp. rewrite <- (take_rows_all s) at 2. unfold take_rows. by rewrite Hp.
Qed.

(** X6.  When the table has a single [Date] column that holds at least one
    timestamp, the chart is drawn over [Date]; its frame is the table with all
    columns rearranged by one and the same rearrangement of the rows, no cell
    is lost or made up, and [Date] ascends with the missing dates last. *)
Theorem axis_date_sorted (df : DataFrame) (dates : list cell) :
  getitem df "Date" = Ok (Series dates) ->
  forallb isna dates = false ->
  exists chart order,
    choose_axis df = Ok (chart, "Date") /\
    order ≡ₚ seq 0 (length dates) /\
    cols chart = prod_map id (take_rows order) <$> cols df /\
    nrows chart = nrows df /\
    getitem chart "Date" = Ok (Series (take_rows order dates)) /\
    Sorted key_le (take_rows order dates) /\
    (forall s : list cell, length s = length dates -> take_rows order s ≡ₚ s).
Proof.
  intros Hsel%getitem_series_inv Hna.
  destruct (choose_axis_date df dates Hsel Hna) as (Hc & Hsorted & Hperm).
  eexists _, (argsort dates). split; [exact Hc|]. split; [done|].
  split; [done|]. split; [done|]. split; [|split; [done|]].
  - unfold getitem. cbn [cols]. rewrite sel_fmap by (by intros []). by rewrite Hsel.
  - intros s Hs. apply take_rows_Permutation. by rewrite Hs.
Qed.

Lemma period_not_standardized (df : DataFrame) :
  "Period" ∉ columns (standard_form df).
Proof.
  unfold columns. intros (c & Hl & Hc)%list_elem_of_fmap.
  apply standard_form_inv in Hc as [Hfix _]. by rewrite <- Hl in Hfix.
Qed.

Lemma period_not_loaded file1 file2 (combined : DataFrame) :
  load file1 file2 = Ok combined -> "Period" ∉ columns combined.
Proof.
  intros (df1 & df2 & t1 & t2 & _ & _ & H1 & H2 & Hm)%load_Ok_inv Hin.
  apply standardize_Ok_inv in H1 as [_ ->]. apply standardize_Ok_inv in H2 as [_ ->].
  unfold merge in Hm. apply (columns_concat _ _ _ _ Hm) in Hin.
  rewrite !columns_setitem_scalar, !elem_of_app in Hin.
  destruct Hin as [[Hin|Hin]|[Hin|Hin]];
    try (by apply period_not_standardized in Hin);
    destruct (has_column _ _);
    first [by apply elem_of_nil in Hin | by apply list_elem_of_singleton in Hin].
Qed.

(** X7.  When every date of a loaded table is missing and no column is
    labelled [index], the chart is drawn over [Period]: its frame is the
    table with one column in front, the only one labelled [Period], that holds
    the row positions 0, 1, 2, ... *)
Theorem axis_period_row_positions file1 file2 (combined : DataFrame) (dates : list cell) :
  load file1 file2 = Ok combined ->
  getitem combined "Date" = Ok (Series dates) ->
  forallb isna dates = true ->
  "index" ∉ columns combined ->
  exists chart,
    choose_axis combined = Ok (chart, "Period") /\
    cols chart
      = ("Period", (fun i => CNum (nofnat i)) <$> seq 0 (nrows combined)) :: cols combined /\
    nrows chart = nrows combined /\
    getitem chart "Period"
      = Ok (Series ((fun i => CNum (nofnat i)) <$> seq 0 (nrows combined))).
Proof.
  intros Hload Hsel%getitem_series_inv Hna Hidx.
  eexists. split; [by apply (choose_axis_period combined dates)|].
  split; [done|]. split; [done|].
  unfold getitem. cbn [cols]. rewrite filter_cons_True by done.
  assert (sel "Period" (cols combined) = []) as ->; [|done].
  apply has_column_false, not_true_iff_false. rewrite has_column_elem.
  by apply (period_not_loaded file1 file2).
Qed.

(** X8.  With a single [Date] column, choosing the axis raises in one case
    only: every date is missing and the table has both a column [index] and a
    column [level_0]; the error is the [ValueError] of [reset_index]. *)
Theorem choose_axis_raises_iff (df : DataFrame) (dates : list cell) (e : exn) :
  getitem df "Date" = Ok (Series dates) ->
  choose_axis df = Raise e <->
  forallb isna dates = true /\ "index" ∈ columns df /\ "level_0" ∈ columns df /\
  e = ValueError "cannot insert level_0, already exists".
Proof.
  intros Hget. pose proof (getitem_series_inv _ _ _ Hget) as Hsel.
  unfold choose_axis, date_all_na.
  assert (has_column "Date" df = true) as ->.
  { apply has_column_true. by rewrite Hsel. }
  rewrite Hget. cbn [negb mbind result_bind].
  destruct (forallb isna dates).
  - unfold reset_index. rewrite <- !has_column_elem.
    destruct (has_column "index" df) eqn:Hi; cbn [mbind result_bind].
    + destruct (has_column "level_0" df) eqn:Hl; cbn [mbind result_bind].
      * split; [intros [= <-]; done|]. by intros (_ & _ & _ & ->).
      * split; [done|]. by intros (_ & _ & ? & _).
    + rewrite Hi. cbn [mbind result_bind]. split; [done|]. by intros (_ & ? & _).
  - unfold sort_values. rewrite Hget. cbn [mbind result_bind].
    split; [done|]. by intros (? & _).
Qed.

Lemma loaded_column_sum file1 file2 (combined : DataFrame) key :
  load file1 file2 = Ok combined -> key ∈ canonical ->
  exists s, getitem combined key = Ok (Series s) /\
            column_sum combined key = Ok (series_sum s) /\
            key ∈ columns combined.
Proof.
  intros Hload Hk. destruct (loaded_sel _ _ _ key Hload Hk) as [s Hs].
  exists s. unfold column_sum, getitem. rewrite Hs. repeat split.
  unfold columns. by eapply sel_singleton_elem.
Qed.

(** X9.  After a successful load the page always shows the success note, the
    three totals, with the profit being revenue minus expenses, and a selector
    offering both metrics.  What follows is the chart and the summary over the
    frame of the chosen axis, or nothing but the exception when choosing the
    axis raised. *)
Theorem script_success_layout file1 file2 selectbox (combined : DataFrame) :
  load file1 file2 = Ok combined ->
  exists total_revenue total_expenses tail,
    column_sum combined "Revenue" = Ok total_revenue /\
    column_sum combined "Expenses" = Ok total_expenses /\
    script (Some file1) (Some file2) selectbox
      = dashboard_head total_revenue total_expenses ++ tail /\
    match choose_axis combined with
    | Ok (chart, x_col) =>
        tail = [st_plotly_chart chart x_col (selectbox ["Revenue"; "Expenses"]) "Company";
                st_dataframe_describe chart]
    | Raise e => tail = [uncaught e]
    end.
Proof.
  intros Hload.
  destruct (loaded_column_sum _ _ _ "Revenue" Hload) as (r & _ & Hr & Hrin).
  { unfold canonical. rewrite !elem_of_cons. tauto. }
  destruct (loaded_column_sum _ _ _ "Expenses" Hload) as (x & _ & Hx & Hxin).
  { unfold canonical. rewrite !elem_of_cons. tauto. }
  exists (series_sum r), (series_sum x).
  unfold script, render. rewrite Hload, Hr, Hx.
  rewrite !filter_cons, filter_nil, !decide_True by done.
  destruct (choose_axis combined) as [[chart x_col]|e]; eexists; repeat split; reflexivity.
Qed.

(** X10.  Every run of the script makes exactly one of the three sidebar
    status calls (missing upload, load error, success). *)
Theorem script_one_status uploaded_file1 uploaded_file2 selectbox :
  length (filter (fun c : call (num := num) => is_status c = true)
            (script uploaded_file1 uploaded_file2 selectbox)) = 1.
Proof.
  unfold script. destruct uploaded_file1 as [file1|], uploaded_file2 as [file2|];
    try reflexivity.
  destruct (load file1 file2) as [combined|e]; [|reflexivity].
  unfold render.
  destruct (column_sum combined "Revenue"); [|reflexivity].
  destruct (column_sum combined "Expenses"); [|reflexivity].
  destruct (choose_axis combined) as [[chart x_col]|]; reflexivity.
Qed.

(** X14.  Uploads without data rows, in each of which no two columns get the
    same name from the classifier, still load: both totals are 0 and the
    [Date] column is empty, so that the axis falls to the [Period] branch. *)
Theorem empty_uploads_totals file1 file2 (df1 df2 : DataFrame) :
  read_csv file1 = Ok df1 -> read_csv file2 = Ok df2 ->
  wf df1 -> wf df2 -> nrows df1 = 0 -> nrows df2 = 0 ->
  NoDup (classify <$> columns df1) -> NoDup (classify <$> columns df2) ->
  exists combined,
    load file1 file2 = Ok combined /\
    column_sum combined "Revenue" = Ok nzero /\
    column_sum combined "Expenses" = Ok nzero /\
    getitem combined "Date" = Ok (Series []) /\
    date_all_na combined = Ok true.
Proof.
  intros R1 R2 W1 W2 N1 N2 D1 D2.
  assert (exists combined, load file1 file2 = Ok combined) as [combined Hload].
  { unfold load. rewrite R1, R2. cbn [mbind result_bind].
    assert (forall df : DataFrame, NoDup (classify <$> columns df) -> unambiguous df) as Hu.
    { intros df Hnd. unfold unambiguous. apply Forall_forall. intros key _.
      by apply NoDup_occurrences. }
    rewrite !standardize_unambiguous by auto. cbn [mbind result_bind].
    unfold merge, concat. destruct (decide _); [by eexists|].
    rewrite !bool_decide_true; [by eexists|..];
      by apply NoDup_columns_setitem_scalar, NoDup_columns_standard_form. }
  exists combined. split; [done|].
  destruct (load_wf _ _ _ _ _ R1 R2 W1 W2 Hload) as [Hn Hw].
  assert (forall key, key ∈ canonical -> sel key (cols combined) = [(key, [])]) as Hsel.
  { intros key Hk. destruct (loaded_sel _ _ _ key Hload Hk) as [s Hs].
    assert ((key, s) ∈ cols combined) as Hin.
    { assert ((key, s) ∈ sel key (cols combined)) as [_ ?]%sel_elem by (rewrite Hs; left).
      done. }
    apply (wf_elem _ _ Hw) in Hin. cbn in Hin.
    rewrite Hn, N1, N2 in Hin. apply nil_length_inv in Hin. by rewrite Hin in Hs. }
  unfold date_all_na, column_sum, getitem.
  rewrite !Hsel by (unfold canonical; rewrite !elem_of_cons; tauto).
  done.
Qed.

End PageMore.

(** ** Column order of the merge and the renamed index *)

Section OrderMore.
Context {num : Type} `{!Numeric num, !Pandas num}.

Local Abbreviation cell := (cell num).
Local Abbreviation DataFrame := (DataFrame num).
Local Abbreviation column := (string * list cell)%type.
Local Abbreviation sel key cs := (filter (fun c : column => c.1 = key) cs).

Lemma filter_fst_fmap (P : string -> Prop) `{!forall l, Decision (P l)}
    (cs : list column) :
  filter P cs.*1 = (filter (fun c : column => P c.1) cs).*1.
Proof.
  induction cs as [|c cs IH]; [done|].
  rewrite fmap_cons, !filter_cons. destruct (decide (P c.1)); by rewrite ?fmap_cons, IH.
Qed.

Lemma columns_concat_order (a b c : DataFrame) :
  concat a b = Ok c ->
  columns c = columns a ++ filter (fun l => l ∉ columns a) (columns b).
Proof.
  unfold concat. destruct (decide (columns a = columns b)) as [Hab|Hab].
  { intros [= <-]. rewrite <- Hab.
    assert (filter (fun l => l ∉ columns a) (columns a) = []) as ->.
    { destruct (filter _ (columns a)) as [|x xs] eqn:E; [done|]. exfalso.
      assert (x ∈ filter (fun l => l ∉ columns a) (columns a)) as [? ?]%list_elem_of_filter
        by (rewrite E; left).
      done. }
    rewrite app_nil_r. unfold columns in *. cbn [cols].
    revert Hab. generalize (cols b). induction (cols a) as [|x xs IH]; intros [|y ys]; try done.
    cbn. intros [= _ H]. f_equal. by apply IH. }
  destruct (_ && _); [|done]. intros [= <-]. unfold columns at 1. cbn [cols].
  rewrite fmap_app. f_equal.
  - rewrite <- list_fmap_compose. apply list_fmap_ext. by intros.
  - change (columns b) with ((cols b).*1).
    rewrite (filter_fst_fmap (fun l => l ∉ columns a)), <- list_fmap_compose.
    apply list_fmap_ext. by intros.
Qed.

(** X16.  The columns of the combined table are those of the first table,
    then [Company] unless the first table has it already, then the columns of
    the second table that are new, each in its original order. *)
Theorem merge_column_order (tableA tableB combined : DataFrame) :
  merge tableA tableB = Ok combined ->
  let a := columns tableA ++ (if has_column "Company" tableA then [] else ["Company"]) in
  let b := columns tableB ++ (if has_column "Company" tableB then [] else ["Company"]) in
  columns combined = a ++ filter (fun l => l ∉ a) b.
Proof.
  unfold merge. intros Hc%columns_concat_order.
  by rewrite !columns_setitem_scalar in Hc.
Qed.

Lemma sel_renamed_index (cs : list column) :
  Forall (fun c : column => c.1 ≠ "Period" /\ c.1 ≠ "level_0") cs ->
  sel "Period" (prod_map (fun l => if decide (l = "index") then "Period" else l) id <$> cs)
    = prod_map (fun _ => "Period") id <$> sel "index" cs /\
  sel "level_0" (prod_map (fun l => if decide (l = "index") then "Period" else l) id <$> cs)
    = [].
Proof.
  set (g := fun l : string => if decide (l = "index") then "Period" else l).
  induction 1 as [|[l s] cs [HP HL] _ [IH1 IH2]]; [done|].
  cbn [fst] in HP, HL. rewrite fmap_cons.
  change (prod_map g id (l, s)) with (g l, s).
  destruct (decide (l = "index")) as [->|Hl].
  - change (g "index") with "Period".
    rewrite (filter_cons_True (fun c : column => c.1 = "Period")) by done.
    rewrite (filter_cons_False (fun c : column => c.1 = "level_0")) by done.
    rewrite (filter_cons_True (fun c : column => c.1 = "index")) by done.
    by rewrite fmap_cons, IH1, IH2.
  - assert (g l = l) as -> by (unfold g; by rewrite decide_False).
    rewrite (filter_cons_False (fun c : column => c.1 = "Period")) by done.
    rewrite (filter_cons_False (fun c : column => c.1 = "level_0")) by done.
    rewrite (filter_cons_False (fun c : column => c.1 = "index")) by done.
    by rewrite IH1, IH2.
Qed.

(** X17.  When every date of a loaded table is missing and the table has a
    column [index] but none labelled [level_0], the chart is drawn over
    [Period], and [Period] is that [index] column of the uploads; the row
    positions are kept in a column [level_0]. *)
Theorem axis_period_index_clash file1 file2 (combined : DataFrame)
    (dates idx : list cell) :
  load file1 file2 = Ok combined ->
  getitem combined "Date" = Ok (Series dates) ->
  forallb isna dates = true ->
  getitem combined "index" = Ok (Series idx) ->
  "level_0" ∉ columns combined ->
  exists chart,
    choose_axis combined = Ok (chart, "Period") /\
    getitem chart "Period" = Ok (Series idx) /\
    getitem chart "level_0"
      = Ok (Series ((fun i => CNum (nofnat i)) <$> seq 0 (nrows combined))).
Proof.
  intros Hload Hdate%getitem_series_inv Hna Hidx%getitem_series_inv Hlvl.
  assert ("index" ∈ columns combined) as Hin by (unfold columns; by eapply sel_singleton_elem).
  destruct (choose_axis_index_clash combined dates Hdate Hna Hin Hlvl) as (chart & Hc & Hcols).
  exists chart. split; [done|].
  assert (Forall (fun c : column => c.1 ≠ "Period" /\ c.1 ≠ "level_0") (cols combined)) as Hall.
  { apply Forall_forall. intros c Hc'. split; intros Heq.
    - apply (period_not_loaded _ _ _ Hload). rewrite <- Heq. unfold columns.
      by apply list_elem_of_fmap_2.
    - apply Hlvl. rewrite <- Heq. unfold columns. by apply list_elem_of_fmap_2. }
  destruct (sel_renamed_index _ Hall) as [HP HL].
  unfold getitem. rewrite Hcols, !filter_cons.
  rewrite decide_False, decide_True by done. by rewrite HP, HL, Hidx.
Qed.

End OrderMore.

(** ** Concrete runs for the further properties *)

Import Runs.

Lemma sales_costs_loaded : load sales_csv costs_csv = Ok both.
Proof. vm_compute. reflexivity. Defined.

Lemma sales_parsed : read_csv sales_csv = Ok monthly.
Proof. vm_compute. reflexivity. Defined.

Lemma costs_parsed : read_csv costs_csv = Ok dated.
Proof. vm_compute. reflexivity. Defined.

Lemma monthly_wf : wf monthly.
Proof. repeat constructor. Defined.

Lemma dated_wf : wf dated.
Proof. repeat constructor. Defined.

Lemma two_revenue_raise :
  _standardize_dataframe two_revenue_columns
  = Raise (TypeError "arg must be a list, tuple, 1-d array, or Series").
Proof. vm_compute. reflexivity. Defined.

(** Witness of X1. *)
Lemma standardize_raise_kind_witness :
  _standardize_dataframe two_revenue_columns
    = Raise (TypeError "arg must be a list, tuple, 1-d array, or Series") /\
  (TypeError "arg must be a list, tuple, 1-d array, or Series"
     = ValueError "cannot assemble with duplicate keys" /\
   2 <= occurrences "Date" two_revenue_columns \/
   TypeError "arg must be a list, tuple, 1-d array, or Series"
     = TypeError "arg must be a list, tuple, 1-d array, or Series" /\
   occurrences "Date" two_revenue_columns <= 1 /\
   (2 <= occurrences "Revenue" two_revenue_columns \/
    2 <= occurrences "Expenses" two_revenue_columns)).
Proof.
  split; [exact two_revenue_raise|].
  exact (standardize_raise_kind two_revenue_columns _ two_revenue_raise).
Defined.

(** Witness of X2: the created [Expenses] column comes last. *)
Lemma standardize_column_order_witness :
  _standardize_dataframe monthly = Ok monthly_std /\
  columns monthly_std
  = (classify <$> columns monthly)
    ++ filter (fun key => key ∉ classify <$> columns monthly) canonical.
Proof.
  split; [exact monthly_standardized|].
  exact (standardize_column_order monthly monthly_std monthly_standardized).
Defined.

(** Witness of X3. *)
Lemma classify_ignores_case_and_blanks_witness :
  lower (strip "  SALES ") = lower (strip "sales") /\
  (classify "  SALES " ∈ canonical <-> classify "sales" ∈ canonical) /\
  (classify "  SALES " ∈ canonical -> classify "  SALES " = classify "sales").
Proof.
  split; [reflexivity|].
  exact (classify_ignores_case_and_blanks "  SALES " "sales" eq_refl).
Defined.

Lemma region_in_monthly_std : "Region" ∈ columns monthly_std.
Proof. do 2 apply list_elem_of_further. apply list_elem_of_here. Defined.

Lemma region_not_canonical : "Region" ∉ canonical.
Proof.
  unfold canonical. rewrite !not_elem_of_cons.
  repeat split; try discriminate. apply not_elem_of_nil.
Defined.

(** Witness of X5. *)
Lemma standardized_labels_keyword_free_witness :
  _standardize_dataframe monthly = Ok monthly_std /\
  "Region" ∈ columns monthly_std /\ ("Region" ∉ canonical) /\
  strip "Region" = "Region" /\
  Forall (fun kw => contains kw (lower "Region") = false) keywords.
Proof.
  split; [exact monthly_standardized|]. split; [exact region_in_monthly_std|].
  split; [exact region_not_canonical|].
  exact (standardized_labels_keyword_free monthly monthly_std "Region"
           monthly_standardized region_in_monthly_std region_not_canonical).
Defined.

Lemma both_date_column : getitem both "Date" = Ok (Series both_dates).
Proof. vm_compute. reflexivity. Defined.

(** Witness of X6. *)
Lemma axis_date_sorted_witness :
  getitem both "Date" = Ok (Series both_dates) /\
  forallb isna both_dates = false /\
  exists chart order,
    choose_axis both = Ok (chart, "Date") /\
    order ≡ₚ seq 0 (length both_dates) /\
    cols chart = prod_map id (take_rows order) <$> cols both /\
    nrows chart = nrows both /\
    getitem chart "Date" = Ok (Series (take_rows order both_dates)) /\
    Sorted key_le (take_rows order both_dates) /\
    (forall s : list (cell Z), length s = length both_dates -> take_rows order s ≡ₚ s).
Proof.
  split; [exact both_date_column|]. split; [reflexivity|].
  exact (axis_date_sorted both both_dates both_date_column eq_refl).
Defined.

Lemma plain_loaded : load plain_csv plain_csv = Ok plain_combined.
Proof. vm_compute. reflexivity. Defined.

Lemma plain_date_column : getitem plain_combined "Date" = Ok (Series [CNaT; CNaT]).
Proof. vm_compute. reflexivity. Defined.

Lemma plain_no_index : "index" ∉ columns plain_combined.
Proof.
  unfold plain_combined, columns. cbn. rewrite !not_elem_of_cons.
  repeat split; try discriminate. apply not_elem_of_nil.
Defined.

(** Witness of X7. *)
Lemma axis_period_row_positions_witness :
  load plain_csv plain_csv = Ok plain_combined /\
  getitem plain_combined "Date" = Ok (Series [CNaT; CNaT]) /\
  forallb isna [CNaT (num := Z); CNaT] = true /\
  ("index" ∉ columns plain_combined) /\
  exists chart,
    choose_axis plain_combined = Ok (chart, "Period") /\
    cols chart
      = ("Period", (fun i => CNum (nofnat i)) <$> seq 0 (nrows plain_combined))
        :: cols plain_combined /\
    nrows chart = nrows plain_combined /\
    getitem chart "Period"
      = Ok (Series ((fun i => CNum (nofnat i)) <$> seq 0 (nrows plain_combined))).
Proof.
  split; [exact plain_loaded|]. split; [exact plain_date_column|].
  split; [reflexivity|]. split; [exact plain_no_index|].
  exact (axis_period_row_positions plain_csv plain_csv plain_combined [CNaT; CNaT]
           plain_loaded plain_date_column eq_refl plain_no_index).
Defined.

Lemma levels_date_column : getitem levels_combined "Date" = Ok (Series [CNaT; CNaT]).
Proof. vm_compute. reflexivity. Defined.

Lemma levels_has_index : "index" ∈ columns levels_combined.
Proof. apply list_elem_of_here. Defined.

Lemma levels_has_level_0 : "level_0" ∈ columns levels_combined.
Proof. apply list_elem_of_further, list_elem_of_here. Defined.

(** Witness of X8: the table loaded from two uploads with [index] and
    [level_0] columns. *)
Lemma choose_axis_raises_iff_witness :
  load levels_csv levels_csv = Ok levels_combined /\
  getitem levels_combined "Date" = Ok (Series [CNaT; CNaT]) /\
  choose_axis levels_combined
  = Raise (ValueError "cannot insert level_0, already exists").
Proof.
  split; [vm_compute; reflexivity|]. split; [exact levels_date_column|].
  apply (choose_axis_raises_iff levels_combined [CNaT; CNaT] _ levels_date_column).
  split; [reflexivity|]. split; [exact levels_has_index|].
  split; [exact levels_has_level_0|reflexivity].
Defined.

(** Witness of X9. *)
Lemma script_success_layout_witness :
  load sales_csv costs_csv = Ok both /\
  exists total_revenue total_expenses tail,
    column_sum both "Revenue" = Ok total_revenue /\
    column_sum both "Expenses" = Ok total_expenses /\
    script (Some sales_csv) (Some costs_csv) first_option
      = dashboard_head total_revenue total_expenses ++ tail /\
    match choose_axis both with
    | Ok (chart, x_col) =>
        tail = [st_plotly_chart chart x_col (first_option ["Revenue"; "Expenses"]) "Company";
                st_dataframe_describe chart]
    | Raise e => tail = [uncaught e]
    end.
Proof.
  split; [exact sales_costs_loaded|].
  exact (script_success_layout sales_csv costs_csv first_option both sales_costs_loaded).
Defined.

(** Witness of X11. *)
Lemma load_row_count_witness :
  read_csv sales_csv = Ok monthly /\ read_csv costs_csv = Ok dated /\
  wf monthly /\ wf dated /\ load sales_csv costs_csv = Ok both /\
  nrows both = nrows monthly + nrows dated /\ wf both.
Proof.
  split; [exact sales_parsed|]. split; [exact costs_parsed|].
  split; [exact monthly_wf|]. split; [exact dated_wf|].
  split; [exact sales_costs_loaded|].
  pose proof (load_row_count sales_csv costs_csv monthly dated both
                sales_parsed costs_parsed monthly_wf dated_wf sales_costs_loaded) as H.
  exact (conj (proj1 H) (proj1 (proj2 H))).
Defined.

Lemma monthly_labels_distinct : NoDup (classify <$> columns monthly).
Proof. apply (bool_decide_unpack _). vm_compute. exact I. Defined.

Lemma dated_labels_distinct : NoDup (classify <$> columns dated).
Proof. apply (bool_decide_unpack _). vm_compute. exact I. Defined.

(** Witness of X12. *)
Lemma load_succeeds_witness :
  read_csv sales_csv = Ok monthly /\ read_csv costs_csv = Ok dated /\
  NoDup (classify <$> columns monthly) /\ NoDup (classify <$> columns dated) /\
  exists combined, load sales_csv costs_csv = Ok combined.
Proof.
  split; [exact sales_parsed|]. split; [exact costs_parsed|].
  split; [exact monthly_labels_distinct|]. split; [exact dated_labels_distinct|].
  exact (load_succeeds sales_csv costs_csv monthly dated sales_parsed costs_parsed
           monthly_labels_distinct dated_labels_distinct).
Defined.

(** Witness of X13: the same labels over other cells and another number of
    rows. *)
Lemma standardize_outcome_by_labels_witness :
  columns monthly = columns monthly_other_cells /\
  is_ok (_standardize_dataframe monthly)
  = is_ok (_standardize_dataframe monthly_other_cells).
Proof.
  split; [reflexivity|].
  exact (standardize_outcome_by_labels monthly monthly_other_cells eq_refl).
Defined.

Lemma header_only_parsed : read_csv header_only_csv = Ok header_only.
Proof. vm_compute. reflexivity. Defined.

Lemma header_only_wf : wf header_only.
Proof. repeat constructor. Defined.

Lemma header_only_loaded : load header_only_csv header_only_csv = Ok header_only_combined.
Proof. vm_compute. reflexivity. Defined.

Lemma header_only_labels_distinct : NoDup (classify <$> columns header_only).
Proof. apply (bool_decide_unpack _). vm_compute. exact I. Defined.

(** Witness of X14. *)
Lemma empty_uploads_totals_witness :
  read_csv header_only_csv = Ok header_only /\ wf header_only /\
  nrows header_only = 0 /\ NoDup (classify <$> columns header_only) /\
  exists combined,
    load header_only_csv header_only_csv = Ok combined /\
    column_sum combined "Revenue" = Ok nzero /\
    column_sum combined "Expenses" = Ok nzero /\
    getitem combined "Date" = Ok (Series []) /\
    date_all_na combined = Ok true.
Proof.
  split; [exact header_only_parsed|]. split; [exact header_only_wf|].
  split; [reflexivity|]. split; [exact header_only_labels_distinct|].
  exact (empty_uploads_totals header_only_csv header_only_csv header_only header_only
           header_only_parsed header_only_parsed
           header_only_wf header_only_wf eq_refl eq_refl
           header_only_labels_distinct header_only_labels_distinct).
Defined.

Lemma sales_in_monthly : ("Sales", [CNum 100%Z; CStr "abc"]) ∈ cols monthly.
Proof. apply list_elem_of_further, list_elem_of_here. Defined.

Lemma revenue_is_metric : "Revenue" ∈ ["Revenue"; "Expenses"].
Proof. apply list_elem_of_here. Defined.

(** Witness of X15: the text "abc" under [Sales] does not count. *)
Lemma total_skips_unparseable_witness :
  (forall x : Z, nadd nzero x = x) /\
  _standardize_dataframe monthly = Ok monthly_std /\
  column_sum monthly_std "Revenue"
  = Ok (series_sum (to_numeric_cell <$> [CNum 100%Z; CStr "abc"])).
Proof.
  assert (forall x : Z, nadd nzero x = x) as Hzero by (intros; apply Z.add_0_l).
  split; [exact Hzero|]. split; [exact monthly_standardized|].
  exact (total_skips_unparseable monthly monthly_std "Revenue" "Sales" _ Hzero
           monthly_standardized revenue_is_metric sales_in_monthly eq_refl).
Defined.

Lemma levels_free_loaded :
  load indexed_a_csv indexed_b_csv
  = Ok (frame [("index", [CNum 7%Z; CNum 9%Z; CNum 3%Z]);
               ("Revenue", [CNum 100%Z; CNum 200%Z; CNum 5%Z]);
               ("Date", [CNaT; CNaT; CNaT]);
               ("Expenses", [CNum 0%Z; CNum 0%Z; CNum 0%Z]);
               ("Company", [CStr "Company A"; CStr "Company A"; CStr "Company B"])] 3).
Proof. vm_compute. reflexivity. Defined.

(** Witness of X16. *)
Lemma merge_column_order_witness :
  merge monthly_std dated_std = Ok both /\
  columns both = ["Date"; "Revenue"; "Region"; "Expenses"; "Company"].
Proof.
  split; [exact both_merged|].
  exact (merge_column_order monthly_std dated_std both both_merged).
Defined.

(** Witness of X17. *)
Lemma axis_period_index_clash_witness :
  exists combined chart,
    load indexed_a_csv indexed_b_csv = Ok combined /\
    getitem combined "Date" = Ok (Series [CNaT; CNaT; CNaT]) /\
    getitem combined "index" = Ok (Series [CNum 7%Z; CNum 9%Z; CNum 3%Z]) /\
    choose_axis combined = Ok (chart, "Period") /\
    getitem chart "Period" = Ok (Series [CNum 7%Z; CNum 9%Z; CNum 3%Z]).
Proof.
  eexists.
  assert ("level_0" ∉ columns (frame [("index", [CNum 7%Z; CNum 9%Z; CNum 3%Z]);
               ("Revenue", [CNum 100%Z; CNum 200%Z; CNum 5%Z]);
               ("Date", [CNaT; CNaT; CNaT]);
               ("Expenses", [CNum 0%Z; CNum 0%Z; CNum 0%Z]);
               ("Company", [CStr "Company A"; CStr "Company A"; CStr "Company B"])] 3))
    as Hlvl.
  { unfold columns. cbn. rewrite !not_elem_of_cons.
    repeat split; try discriminate. apply not_elem_of_nil. }
  destruct (axis_period_index_clash indexed_a_csv indexed_b_csv _
              [CNaT; CNaT; CNaT] [CNum 7%Z; CNum 9%Z; CNum 3%Z]
              levels_free_loaded eq_refl eq_refl eq_refl Hlvl) as (chart & Hc & HP & _).
  exists chart. split; [exact levels_free_loaded|]. repeat split; assumption.
Defined.

(** ** Totals over float64 *)

Import Float64.

(** C3 as stated fails over [float64]: for revenues 1e16, 1 of one company
    and 1, 1 of the other, the total of the combined table is not the sum of
    the two totals. *)
Lemma merge_totals_float_rounding :
  exists tableA tableB combined total_a total_b total,
    _standardize_dataframe large_and_small = Ok tableA /\
    _standardize_dataframe small_only = Ok tableB /\
    merge tableA tableB = Ok combined /\
    column_sum tableA "Revenue" = Ok total_a /\
    column_sum tableB "Revenue" = Ok total_b /\
    column_sum combined "Revenue" = Ok total /\
    total <> nadd total_a total_b.
Proof.
  eexists _, _, _, _, _, _.
  split; [vm_compute; reflexivity|]. split; [vm_compute; reflexivity|].
  split; [vm_compute; reflexivity|]. split; [vm_compute; reflexivity|].
  split; [vm_compute; reflexivity|]. split; [vm_compute; reflexivity|].
  intros H. apply (f_equal (fun x => PrimFloat.eqb x 10000000000000004%float)) in H.
  vm_compute in H. discriminate.
Qed.

(** The same revenues added from the left: the totals differ as well. *)
Example left_sum_float_rounding :
  left_sum [1e16; 1; 1; 1]%float
  <> PrimFloat.add (left_sum [1e16; 1]%float) (left_sum [1; 1]%float).
Proof.
  intros H. apply (f_equal (fun x => PrimFloat.eqb x 1e16%float)) in H.
  vm_compute in H. discriminate.
Qed.
